(** * live-poll/server/index.js: the room and session state machine

    A shallow embedding of the WebSocket poll server: the [rooms] map, the
    per-connection [meta], the helpers [getRoom], [safeSend], [broadcast],
    [roomState], [errorMsg], and the three handlers registered on a
    connection (the connection callback itself, "message" and "close").

    What the embedding takes from the JavaScript runtime rather than from
    the repository is kept apart: [JSON.parse] has already run (a message is
    either unparseable or a parsed [value]), and [String.prototype.trim],
    [String.prototype.toLowerCase] and the printing of numbers are the fields
    of the class [Runtime]. *)

From Stdlib Require Import QArith Qcanon.
From stdpp Require Import base option list gmap strings pretty.

Set Warnings "-register-all".

(** ** Values produced by [JSON.parse] *)

(** A JSON number literal becomes a double.  The handler only compares such a
    number with [0] and with an array length, uses it as a property key and
    tests it for zero, so a finite double is kept as the rational it denotes
    ([-0] and [0] are the same rational, and the program cannot tell them
    apart); a literal too large for a double parses to an infinity.  [NaN]
    is not a JSON value. *)
Inductive number :=
| Finite (q : Qc)
| PosInfinity
| NegInfinity.

(** Arrays and objects are heap objects: [ref] is the identity of the
    allocation, which is what [===] and [Map] keys compare.  [props] lists
    the own properties of a parsed object.  [Undefined] is what reading an
    absent property gives; [JSON.parse] itself never produces it, and it
    gives every array and object a [ref] that no earlier value has. *)
Inductive value :=
| Undefined
| Null
| Bool (b : bool)
| Num (n : number)
| Str (s : string)
| Arr (ref : nat) (elems : list value)
| Obj (ref : nat) (props : list (string * value)).

Global Instance number_eq_dec : EqDecision number.
Proof. solve_decision. Defined.

Global Instance number_countable : Countable number.
Proof.
  refine (inj_countable'
    (λ n, match n with
          | Finite q => inl q | PosInfinity => inr true | NegInfinity => inr false
          end)
    (λ s, match s with
          | inl q => Finite q | inr true => PosInfinity | inr false => NegInfinity
          end) _).
  by intros [].
Defined.

(** The equivalence class of a value under [SameValueZero] (the comparison of
    [Map] keys and of [Array.prototype.includes]); without [NaN], and with the
    two zeros identified, [===] decides the same classes. *)
Inductive ident :=
| IUndefined
| INull
| IBool (b : bool)
| INum (n : number)
| IStr (s : string)
| IRef (ref : nat).

Global Instance ident_eq_dec : EqDecision ident.
Proof. solve_decision. Defined.

Global Instance ident_countable : Countable ident.
Proof.
  refine (inj_countable'
    (λ i, match i with
          | IUndefined => inl (inl true) | INull => inl (inl false)
          | IBool b => inl (inr b) | INum n => inr (inl n)
          | IStr s => inr (inr (inl s)) | IRef r => inr (inr (inr r))
          end)
    (λ s, match s with
          | inl (inl true) => IUndefined | inl (inl false) => INull
          | inl (inr b) => IBool b | inr (inl n) => INum n
          | inr (inr (inl s)) => IStr s | inr (inr (inr r)) => IRef r
          end) _).
  by intros [].
Defined.

Definition identity (v : value) : ident :=
  match v with
  | Undefined => IUndefined
  | Null => INull
  | Bool b => IBool b
  | Num n => INum n
  | Str s => IStr s
  | Arr r _ => IRef r
  | Obj r _ => IRef r
  end.

(** [a === b] *)
Definition strictEquals (a b : value) : bool :=
  bool_decide (identity a = identity b).

(** ToBoolean: what [!v] and [if (v)] test. *)
Definition truthy (v : value) : bool :=
  match v with
  | Undefined | Null => false
  | Bool b => b
  | Num (Finite q) => negb (bool_decide (q = 0%Qc))
  | Num _ => true
  | Str s => negb (bool_decide (s = ""))
  | Arr _ _ | Obj _ _ => true
  end.

Fixpoint lookupProp (k : string) (ps : list (string * value)) : value :=
  match ps with
  | [] => Undefined
  | (k', v) :: ps' => if bool_decide (k' = k) then v else lookupProp k ps'
  end.

(** [v.k] for the property names the handlers read ([type], [payload],
    [roomId], [name], [role], [question], [id], [text], [options],
    [questionId], [optionIndex]).  None of them is inherited from
    [Object.prototype] or from the prototypes of strings, numbers, booleans
    and arrays, so reading one from anything but an object that owns it
    gives [undefined].  The handlers never read a property of [undefined] or
    [null]: each read is behind a truthiness test of the receiver. *)
Definition get (v : value) (k : string) : value :=
  match v with
  | Obj _ ps => lookupProp k ps
  | _ => Undefined
  end.

(** [Array.isArray(v)], and the elements of an array *)
Definition isArray (v : value) : bool :=
  match v with Arr _ _ => true | _ => false end.

Definition arrayElems (v : value) : list value :=
  match v with Arr _ vs => vs | _ => [] end.

(** [optionIndex < 0] *)
Definition ltZero (n : number) : bool :=
  match n with
  | Finite q => bool_decide (Qclt q 0)
  | PosInfinity => false
  | NegInfinity => true
  end.

(** [optionIndex >= len] for an array length [len] *)
Definition geLength (n : number) (len : nat) : bool :=
  match n with
  | Finite q => bool_decide (Qcle (Q2Qc (inject_Z (Z.of_nat len))) q)
  | PosInfinity => true
  | NegInfinity => false
  end.

(** The array index a number denotes as a property key, when it is a
    non-negative integer. *)
Definition arrayIndex (n : number) : option nat :=
  match n with
  | Finite q =>
      if bool_decide (Qden q = 1%positive ∧ (0 ≤ Qnum q)%Z)
      then Some (Z.to_nat (Qnum q)) else None
  | _ => None
  end.

(** ** The JavaScript runtime *)

Class Runtime := {
  (** [String.prototype.trim] *)
  String_trim : string → string;
  (** [String.prototype.toLowerCase] *)
  String_toLowerCase : string → string;
  (** [Number::toString], the decimal text of a double *)
  Number_toString : number → string
}.

Inductive exn := TypeError.

Section ToString.
Context `{Runtime}.

(** ToString, as a template literal applies it to a substitution.  An
    object parsed from JSON prints as [[object Object]] through
    [Object.prototype.toString], unless it owns a [toString] property:
    that property is not callable, [valueOf] then gives no primitive, and
    the conversion throws.  An array prints through [join]. *)
Fixpoint ToString (v : value) : exn + string :=
  match v with
  | Undefined => inr "undefined"
  | Null => inr "null"
  | Bool true => inr "true"
  | Bool false => inr "false"
  | Num n => inr (Number_toString n)
  | Str s => inr s
  | Arr _ vs =>
      (fix join (vs : list value) : exn + string :=
         match vs with
         | [] => inr ""
         | v :: vs' =>
             match (match v with
                    | Undefined | Null => inr ""
                    | _ => ToString v
                    end), join vs' with
             | inr s, inr rest =>
                 inr (match vs' with [] => s | _ => s +:+ "," +:+ rest end)
             | inl e, _ => inl e
             | _, inl e => inl e
             end
         end) vs
  | Obj _ ps =>
      if bool_decide ("toString" ∈ ps.*1) then inl TypeError
      else inr "[object Object]"
  end.
End ToString.

(** ** Rooms, sessions and messages *)

Definition conn := nat.

(** [room.question = { id: q.id, text: q.text, options: q.options }]: the
    fields are stored as they came, without a check of their types. *)
Record questionObj := Question {
  qid : value;
  qtext : value;
  qoptions : list value
}.

(** [room.counts] is a JavaScript array: besides its [entries] it can carry
    properties under keys that are not array indices.  The only value the
    code ever stores under such a key is [NaN] ([undefined + 1], and
    [NaN + 1] afterwards), so the keys are enough.  [JSON.stringify] and
    [length] see the entries only.  The entries and [total] are counters
    that start at [0] and grow by [1]; they are exact integers (a double is
    exact up to [2^53], which no room reaches). *)
Record countsArray := CountsArray {
  entries : list Z;
  nanKeys : gset Qc
}.

Record room := Room {
  question : option questionObj;
  counts : countsArray;
  total : Z;
  votedBy : gset string;
  clients : list conn       (* a [Set]: no duplicates, in insertion order *)
}.

(** [ws.meta] *)
Record meta := Meta {
  roomId : value;
  name : value;
  role : value
}.

(** The module-level [rooms] map and the [meta] of every connection. *)
Record state := State {
  rooms : gmap ident room;
  metas : gmap conn meta
}.

Inductive msgObj :=
| STATE (roomId : value) (question : option questionObj) (counts : list Z) (total : Z)
| ERROR (message : string).

(** The texts of the [ERROR] events, under the names of the specification's
    error taxonomy. *)
Module Err.
Definition MalformedJson : string := "Mensaje no es JSON válido.".
Definition MalformedEnvelope : string := "Formato inválido.".
Definition JoinIncomplete : string := "JOIN incompleto.".
Definition JoinBadRole : string := "Rol inválido.".
Definition NotJoined : string := "Debes hacer JOIN primero.".
Definition Forbidden : string := "Solo host puede crear preguntas.".
Definition InvalidQuestion : string := "Pregunta inválida.".
Definition InvalidOptionCount : string := "Opciones deben ser 2 a 4.".
Definition NoActiveQuestion : string := "No hay pregunta activa.".
Definition QuestionMismatch : string := "QuestionId no coincide.".
Definition InvalidOptionType : string := "optionIndex inválido.".
Definition InvalidOptionRange : string := "Opción fuera de rango.".
Definition NameRequired : string := "Nombre requerido para votar.".
Definition DuplicateVote : string := "Ya votaste en esta pregunta.".
Definition UnsupportedType : string := "Tipo de mensaje no soportado.".
End Err.

(** [Set.prototype.add] and [Set.prototype.delete] on [room.clients] *)
Definition setAdd (x : conn) (s : list conn) : list conn :=
  if bool_decide (x ∈ s) then s else s ++ [x].

Definition setDelete (x : conn) (s : list conn) : list conn :=
  filter (λ y, y ≠ x) s.

(** [new Array(n).fill(0)] *)
Definition zeros (n : nat) : countsArray := CountsArray (replicate n 0%Z) ∅.

(** [counts[k] += 1] for a number [k] that passed the range test
    [!(k < 0 || k >= counts.length)].  An integer in range is an array
    index; any other key names an ordinary property, which reads as
    [undefined] and is written back as [NaN]. *)
Definition increment (a : countsArray) (k : number) : countsArray :=
  match arrayIndex k, k with
  | Some i, _ => CountsArray (alter (λ c, (c + 1)%Z) i (entries a)) (nanKeys a)
  | None, Finite q => CountsArray (entries a) ({[q]} ∪ nanKeys a)
  | None, _ => a
  end.

Definition newRoom : room := Room None (CountsArray [] ∅) 0%Z ∅ [].

Definition newMeta : meta := Meta Null Null Null.

Definition metaOf (st : state) (ws : conn) : meta :=
  default newMeta (metas st !! ws).

(** The result of running a handler: it returns, leaving a state and the
    messages handed to [ws.send], or an exception leaves it. *)
Inductive outcome :=
| Completed (st : state) (sent : list (conn * msgObj))
| Threw (e : exn).

Definition errorMsg (message : string) : msgObj := ERROR message.

Definition getRoom (roomId : value) (rs : gmap ident room)
  : gmap ident room * room :=
  match rs !! identity roomId with
  | Some r => (rs, r)
  | None => (<[identity roomId := newRoom]> rs, newRoom)
  end.

(** [isOpen ws] is [ws.readyState === WebSocket.OPEN] at the time of the
    call; it belongs to the transport and does not change while a handler
    runs. *)
Definition safeSend (isOpen : conn → bool) (ws : conn) (m : msgObj)
  : list (conn * msgObj) :=
  if isOpen ws then [(ws, m)] else [].

Definition broadcast (isOpen : conn → bool) (roomId : value) (m : msgObj)
    (rs : gmap ident room) : gmap ident room * list (conn * msgObj) :=
  let '(rs, room) := getRoom roomId rs in
  (rs, flat_map (λ client, safeSend isOpen client m) (clients room)).

Definition roomState (roomId : value) (rs : gmap ident room)
  : gmap ident room * msgObj :=
  let '(rs, room) := getRoom roomId rs in
  (rs, STATE roomId (question room) (entries (counts room)) (total room)).

(** ** The handlers *)

Section Handlers.
Context `{Runtime}.

(** [wss.on("connection", ...)]: a new connection starts with an empty
    [meta]. *)
Definition onConnection (ws : conn) (st : state) : state :=
  State (rooms st) (<[ws := newMeta]> (metas st)).

(** The [JOIN] branch of the message handler (lines 74-85). *)
Definition onJoin (isOpen : conn → bool) (ws : conn) (payload : value)
    (st : state) : outcome :=
  let roomId := get payload "roomId" in
  let name := get payload "name" in
  let role := get payload "role" in
  if negb (truthy roomId) || negb (truthy name) || negb (truthy role)
  then Completed st (safeSend isOpen ws (errorMsg Err.JoinIncomplete))
  else if negb (strictEquals role (Str "player") || strictEquals role (Str "host"))
  then Completed st (safeSend isOpen ws (errorMsg Err.JoinBadRole))
  else
    let metas' := <[ws := Meta roomId name role]> (metas st) in
    let '(rs, room) := getRoom roomId (rooms st) in
    let room := Room (question room) (counts room) (total room)
                     (votedBy room) (setAdd ws (clients room)) in
    let rs := <[identity roomId := room]> rs in
    let '(rs, m) := roomState roomId rs in
    Completed (State rs metas') (safeSend isOpen ws m).

(** The [HOST_SET_QUESTION] branch (lines 93-105); [rs] and [room] are the
    result of [getRoom(roomId)] on line 91. *)
Definition onSetQuestion (isOpen : conn → bool) (ws : conn) (payload : value)
    (roomId : value) (rs : gmap ident room) (room : room) (st : state)
  : outcome :=
  if negb (strictEquals (role (metaOf st ws)) (Str "host"))
  then Completed (State rs (metas st))
                 (safeSend isOpen ws (errorMsg Err.Forbidden))
  else
    let q := get payload "question" in
    if negb (truthy q) || negb (truthy (get q "id"))
       || negb (truthy (get q "text")) || negb (isArray (get q "options"))
    then Completed (State rs (metas st))
                   (safeSend isOpen ws (errorMsg Err.InvalidQuestion))
    else
      let options := arrayElems (get q "options") in
      if (length options <? 2)%nat || (4 <? length options)%nat
      then Completed (State rs (metas st))
                     (safeSend isOpen ws (errorMsg Err.InvalidOptionCount))
      else
        let room := Room (Some (Question (get q "id") (get q "text") options))
                         (zeros (length options)) 0%Z ∅ (clients room) in
        let rs := <[identity roomId := room]> rs in
        let '(rs, m) := roomState roomId rs in
        let '(rs, sent) := broadcast isOpen roomId m rs in
        Completed (State rs (metas st)) sent.

(** The template literal on line 115,
    [`${roomId}:${room.question.id}:${name.trim().toLowerCase()}`]: it
    converts [roomId] and [room.question.id] to strings and calls
    [name.trim()].  The call throws a [TypeError] when [name] is not a
    string, since no other JSON value has a callable [trim]. *)
Definition ballotKey (roomId id name : value) : exn + string :=
  match ToString roomId, ToString id, name with
  | inr r, inr i, Str s =>
      inr (r +:+ ":" +:+ i +:+ ":" +:+ String_toLowerCase (String_trim s))
  | inl e, _, _ => inl e
  | _, inl e, _ => inl e
  | _, _, _ => inl TypeError
  end.

(** The [VOTE] branch (lines 107-123). *)
Definition onVote (isOpen : conn → bool) (ws : conn) (payload : value)
    (roomId : value) (rs : gmap ident room) (room : room) (st : state)
  : outcome :=
  let questionId := get payload "questionId" in
  let optionIndex := get payload "optionIndex" in
  let name := get payload "name" in
  let reject message :=
    Completed (State rs (metas st)) (safeSend isOpen ws (errorMsg message)) in
  match question room with
  | None => reject Err.NoActiveQuestion
  | Some q =>
      if negb (strictEquals questionId (qid q))
      then reject Err.QuestionMismatch
      else
        match optionIndex with
        | Num index =>
            if ltZero index || geLength index (length (entries (counts room)))
            then reject Err.InvalidOptionRange
            else if negb (truthy name) then reject Err.NameRequired
            else
              match ballotKey roomId (qid q) name with
              | inl e => Threw e
              | inr key =>
                  if bool_decide (key ∈ votedBy room)
                  then reject Err.DuplicateVote
                  else
                    let room := Room (question room)
                                     (increment (counts room) index)
                                     (total room + 1)%Z
                                     ({[key]} ∪ votedBy room)
                                     (clients room) in
                    let rs := <[identity roomId := room]> rs in
                    let '(rs, m) := roomState roomId rs in
                    let '(rs, sent) := broadcast isOpen roomId m rs in
                    Completed (State rs (metas st)) sent
              end
        | _ => reject Err.InvalidOptionType
        end
  end.

(** [ws.on("message", ...)].  [raw] is the result of
    [JSON.parse(raw.toString())]: [None] when it throws. *)
Definition onMessage (isOpen : conn → bool) (ws : conn) (raw : option value)
    (st : state) : outcome :=
  match raw with
  | None => Completed st (safeSend isOpen ws (errorMsg Err.MalformedJson))
  | Some msg =>
      let msg := if truthy msg then msg else Obj 0 [] in
      let type := get msg "type" in
      let payload := get msg "payload" in
      if negb (truthy type) || negb (truthy payload)
      then Completed st (safeSend isOpen ws (errorMsg Err.MalformedEnvelope))
      else if strictEquals type (Str "JOIN")
      then onJoin isOpen ws payload st
      else if negb (truthy (roomId (metaOf st ws)))
      then Completed st (safeSend isOpen ws (errorMsg Err.NotJoined))
      else
        let roomId := roomId (metaOf st ws) in
        let '(rs, room) := getRoom roomId (rooms st) in
        if strictEquals type (Str "HOST_SET_QUESTION")
        then onSetQuestion isOpen ws payload roomId rs room st
        else if strictEquals type (Str "VOTE")
        then onVote isOpen ws payload roomId rs room st
        else Completed (State rs (metas st))
                       (safeSend isOpen ws (errorMsg Err.UnsupportedType))
  end.

(** [ws.on("close", ...)] *)
Definition onClose (ws : conn) (st : state) : state :=
  let roomId := roomId (metaOf st ws) in
  if negb (truthy roomId) then st
  else
    let '(rs, room) := getRoom roomId (rooms st) in
    let room := Room (question room) (counts room) (total room)
                     (votedBy room) (setDelete ws (clients room)) in
    State (<[identity roomId := room]> rs) (metas st).

(** ** Executions *)

Inductive event :=
| Connection (ws : conn)
| Message (isOpen : conn → bool) (ws : conn) (raw : option value)
| Close (ws : conn).

(** One event; [None] when the handler throws: nothing catches the
    exception, and the process ends. *)
Definition step (e : event) (st : state) : option state :=
  match e with
  | Connection ws => Some (onConnection ws st)
  | Message isOpen ws raw =>
      match onMessage isOpen ws raw st with
      | Completed st' _ => Some st'
      | Threw _ => None
      end
  | Close ws => Some (onClose ws st)
  end.

Fixpoint run (es : list event) (st : state) : option state :=
  match es with
  | [] => Some st
  | e :: es' => st' ← step e st; run es' st'
  end.

Definition initial : state := State ∅ ∅.
End Handlers.

(** ** Invariants of reachable states *)

(** Every connection that carries a room in its [meta] has that room in the
    map: [JOIN] creates the room it binds, and rooms are never removed. *)
Definition joinedRoomsExist (st : state) : Prop :=
  map_Forall (λ _ m, truthy (roomId m) = true →
                     is_Some (rooms st !! identity (roomId m))) (metas st).

Global Instance joinedRoomsExist_dec st : Decision (joinedRoomsExist st).
Proof. unfold joinedRoomsExist. apply _. Defined.

(** The active question of a room has a truthy [id]: line 96 rejects any
    other. *)
Definition questionsHaveId (st : state) : Prop :=
  map_Forall (λ _ r, ∀ q, question r = Some q → truthy (qid q) = true)
             (rooms st).

Global Instance questionsHaveId_dec st : Decision (questionsHaveId st).
Proof.
  unfold questionsHaveId. apply map_Forall_dec. intros _ r.
  destruct (question r) as [q|].
  - destruct (decide (truthy (qid q) = true)) as [E|E].
    + left. by intros ? [= <-].
    + right. intros C. by apply E, C.
  - left. by intros ? [=].
Defined.

(** [counts] has one entry per option of the active question, and none
    before the first question. *)
Definition countsMatchOptions (st : state) : Prop :=
  map_Forall (λ _ r, length (entries (counts r))
                     = from_option (λ q, length (qoptions q)) 0%nat (question r))
             (rooms st).

(** [total] counts the ballots recorded for the active question: every
    accepted vote adds one key to [votedBy] that was not there. *)
Definition oneBallotPerVote (st : state) : Prop :=
  map_Forall (λ _ r, total r = Z.of_nat (size (votedBy r))) (rooms st).

(** [sum(counts)] *)
Definition sum (l : list Z) : Z := foldr Z.add 0%Z l.

(** [total == sum(counts)] in every room. *)
Definition totalsMatch (st : state) : Prop :=
  map_Forall (λ _ r, total r = sum (entries (counts r))) (rooms st).

(** [Number.isInteger] *)
Definition isInteger (n : number) : bool :=
  match n with
  | Finite q => bool_decide (Qden q = 1%positive)
  | _ => false
  end.

(** The number an integer literal parses to. *)
Definition integer (z : Z) : number := Finite (Q2Qc (inject_Z z)).

(** ** Vocabulary of the specification *)

(** A [JOIN] payload that passes lines 76-77. *)
Definition validJoin (payload : value) : bool :=
  truthy (get payload "roomId") && truthy (get payload "name")
  && truthy (get payload "role")
  && (strictEquals (get payload "role") (Str "player")
      || strictEquals (get payload "role") (Str "host")).

(** A message that is a successful [JOIN]. *)
Definition isValidJoin (raw : option value) : bool :=
  match raw with
  | Some msg =>
      truthy (get msg "type") && truthy (get msg "payload")
      && strictEquals (get msg "type") (Str "JOIN")
      && validJoin (get msg "payload")
  | None => false
  end.

(** Unsupported or malformed input: text that does not parse, an envelope
    without type or payload, an unknown type, a command without one of its
    required payload fields. *)
Inductive unsupported : option value → Prop :=
| NotParseable :
    unsupported None
| NoType msg :
    truthy (get msg "type") = false → unsupported (Some msg)
| NoPayload msg :
    truthy (get msg "payload") = false → unsupported (Some msg)
| UnknownType msg :
    get msg "type" ∉ [Str "JOIN"; Str "HOST_SET_QUESTION"; Str "VOTE"] →
    unsupported (Some msg)
| JoinFieldMissing msg k :
    get msg "type" = Str "JOIN" →
    k ∈ ["roomId"; "name"; "role"] →
    get (get msg "payload") k = Undefined →
    unsupported (Some msg)
| QuestionMissing msg :
    get msg "type" = Str "HOST_SET_QUESTION" →
    get (get msg "payload") "question" = Undefined →
    unsupported (Some msg)
| QuestionFieldMissing msg k :
    get msg "type" = Str "HOST_SET_QUESTION" →
    k ∈ ["id"; "text"; "options"] →
    get (get (get msg "payload") "question") k = Undefined →
    unsupported (Some msg)
| VoteFieldMissing msg k :
    get msg "type" = Str "VOTE" →
    k ∈ ["questionId"; "optionIndex"; "name"] →
    get (get msg "payload") k = Undefined →
    unsupported (Some msg).

(** The room a key stands for: [getRoom] gives a fresh room for a key that is
    not in the map yet. *)
Definition roomOf (rs : gmap ident room) (k : ident) : room :=
  default newRoom (rs !! k).

(** What an event of connection [ws], whose [meta] is [m], can do to the room
    of [ws]: nothing, put a new question, record a vote, or remove [ws] from
    its clients.  [oi] is the numeric [optionIndex] the event carries, if
    any. *)
Inductive roomChange (ws : conn) (m : meta) (oi : option number)
  : room → room → Prop :=
| ChangeNone r :
    roomChange ws m oi r r
| ChangeQuestion r q :
    role m = Str "host" →
    truthy (qid q) = true →
    (2 ≤ length (qoptions q) ≤ 4)%nat →
    roomChange ws m oi r
      (Room (Some q) (zeros (length (qoptions q))) 0 ∅ (clients r))
| ChangeVote r q index key :
    oi = Some index →
    question r = Some q →
    ltZero index = false →
    geLength index (length (entries (counts r))) = false →
    key ∉ votedBy r →
    roomChange ws m oi r
      (Room (question r) (increment (counts r) index) (total r + 1)
            ({[key]} ∪ votedBy r) (clients r))
| ChangeLeave r :
    roomChange ws m oi r
      (Room (question r) (counts r) (total r) (votedBy r)
            (setDelete ws (clients r))).

(** The room after [ws] joined it. *)
Definition joined (ws : conn) (r : room) : room :=
  Room (question r) (counts r) (total r) (votedBy r) (setAdd ws (clients r)).

(** What one event of connection [ws] can do to the state. *)
Inductive transition (ws : conn) (oi : option number) (st : state)
  : state → Prop :=
| TStay :
    transition ws oi st st
| TConnect :
    transition ws oi st (State (rooms st) (<[ws := newMeta]> (metas st)))
| TJoin rid nm rl :
    truthy rid = true →
    transition ws oi st
      (State (<[identity rid := joined ws (roomOf (rooms st) (identity rid))]>
                (rooms st))
             (<[ws := Meta rid nm rl]> (metas st)))
| TRoom r' :
    truthy (roomId (metaOf st ws)) = true →
    roomChange ws (metaOf st ws) oi
      (roomOf (rooms st) (identity (roomId (metaOf st ws)))) r' →
    transition ws oi st
      (State (<[identity (roomId (metaOf st ws)) := r']> (rooms st)) (metas st)).

(** The numeric [optionIndex] of a payload, and of an event. *)
Definition numericIndex (payload : value) : option number :=
  match get payload "optionIndex" with
  | Num index => Some index
  | _ => None
  end.

Definition indexOf (raw : option value) : option number :=
  msg ← raw; numericIndex (get msg "payload").

(** [ws] is in the [clients] of the room under key [k]. *)
Definition member (st : state) (k : ident) (ws : conn) : Prop :=
  ∃ r, rooms st !! k = Some r ∧ ws ∈ clients r.

(** The connection an event belongs to, and the [optionIndex] it carries. *)
Definition connOf (e : event) : conn :=
  match e with
  | Connection ws | Message _ ws _ | Close ws => ws
  end.

Definition eventIndex (e : event) : option number :=
  match e with
  | Message _ _ raw => indexOf raw
  | _ => None
  end.

(** The snapshot [roomState(roomId)] builds in a state. *)
Definition snapshotOf (st : state) (rid : value) : msgObj :=
  let r := roomOf (rooms st) (identity rid) in
  STATE rid (question r) (entries (counts r)) (total r).

(** An outcome with only the messages for open sockets kept. *)
Definition gate (isOpen : conn → bool) (o : outcome) : outcome :=
  match o with
  | Completed st sent => Completed st (filter (λ p, isOpen p.1 = true) sent)
  | Threw e => Threw e
  end.

(** A [meta] is either the empty one of a fresh connection or the one a
    [JOIN] has bound: room and name truthy, role [player] or [host]. *)
Definition boundMeta (m : meta) : Prop :=
  truthy (roomId m) = true ∧ truthy (name m) = true
  ∧ (role m = Str "player" ∨ role m = Str "host").

Definition sessionsWellFormed (st : state) : Prop :=
  map_Forall (λ _ m, m = newMeta ∨ boundMeta m) (metas st).

(** [room.clients] holds a connection once. *)
Definition clientsNoDup (st : state) : Prop :=
  map_Forall (λ _ r, NoDup (clients r)) (rooms st).

(** A value that is no array and no object. *)
Definition isPrimitive (v : value) : bool :=
  match v with
  | Arr _ _ | Obj _ _ => false
  | _ => true
  end.

(** A successful [JOIN] of connection [ws], as an event, and the key of the
    room it names. *)
Definition joinsRoom (ws : conn) (k : ident) (e : event) : Prop :=
  ∃ isOpen msg,
    e = Message isOpen ws (Some msg)
    ∧ isValidJoin (Some msg) = true
    ∧ identity (get (get msg "payload") "roomId") = k.

(** The state a successful [JOIN] with [payload] leaves. *)
Definition joinState (ws : conn) (payload : value) (st : state) : state :=
  let k := identity (get payload "roomId") in
  State (<[k := joined ws (roomOf (rooms st) k)]> (rooms st))
        (<[ws := Meta (get payload "roomId") (get payload "name")
                      (get payload "role")]> (metas st)).

(** Connection [ws] is bound to the room under key [k]: its [meta] names
    that room, the room of its last successful [JOIN]. *)
Definition boundTo (st : state) (ws : conn) (k : ident) : Prop :=
  truthy (roomId (metaOf st ws)) = true ∧ identity (roomId (metaOf st ws)) = k.

(** The event is a [HOST_SET_QUESTION] message of a host bound to the room
    under key [k]. *)
Definition asksQuestion (k : ident) (st : state) (e : event) : Prop :=
  ∃ isOpen ws msg,
    e = Message isOpen ws (Some msg)
    ∧ get msg "type" = Str "HOST_SET_QUESTION"
    ∧ role (metaOf st ws) = Str "host"
    ∧ boundTo st ws k.

(** An event that, if it is of connection [ws], is a message other than a
    successful [JOIN]. *)
Definition keepsBinding (ws : conn) (e : event) : Prop :=
  connOf e = ws →
  ∃ isOpen raw, e = Message isOpen ws raw ∧ isValidJoin raw = false.

(** ** A runtime for the examples

    The concrete inputs below are ASCII strings, on which [trim] and
    [toLowerCase] are the functions defined here.  [Number::toString] is
    given for the integers and the infinities; no example prints another
    number, and the text given for those is a plain fraction. *)
Module AsciiRuntime.
Definition isSpace (c : Ascii.ascii) : bool :=
  let n := Ascii.nat_of_ascii c in
  bool_decide (n = 32 ∨ 9 ≤ n ≤ 13)%nat.

Fixpoint trimStart (s : string) : string :=
  match s with
  | String c s' => if isSpace c then trimStart s' else s
  | EmptyString => EmptyString
  end.

Definition trim (s : string) : string :=
  String.rev (trimStart (String.rev (trimStart s))).

Definition lowerChar (c : Ascii.ascii) : Ascii.ascii :=
  let n := Ascii.nat_of_ascii c in
  if bool_decide (65 ≤ n ≤ 90)%nat then Ascii.ascii_of_nat (n + 32) else c.

Fixpoint toLowerCase (s : string) : string :=
  match s with
  | String c s' => String (lowerChar c) (toLowerCase s')
  | EmptyString => EmptyString
  end.

Definition numberToString (n : number) : string :=
  match n with
  | Finite q =>
      if bool_decide (Qden q = 1%positive) then pretty (Qnum q)
      else pretty (Qnum q) +:+ "/" +:+ pretty (Zpos (Qden q))
  | PosInfinity => "Infinity"
  | NegInfinity => "-Infinity"
  end.
End AsciiRuntime.

Global Instance ascii_runtime : Runtime := {|
  String_trim := AsciiRuntime.trim;
  String_toLowerCase := AsciiRuntime.toLowerCase;
  Number_toString := AsciiRuntime.numberToString
|}.

Module Scenario.
(** The parsed form of [{"type": ..., "payload": {...}}]; every object of a
    message is an allocation of its own. *)
Definition envelope (type : string) (payload : list (string * value)) : value :=
  Obj 0 [("type", Str type); ("payload", Obj 1 payload)].
Definition joinMsg (roomId name role : string) : value :=
  envelope "JOIN" [("roomId", Str roomId); ("name", Str name); ("role", Str role)].
Definition setQuestionMsg (id text : string) (options : list string) : value :=
  envelope "HOST_SET_QUESTION"
    [("question", Obj 2 [("id", Str id); ("text", Str text);
                         ("options", Arr 3 (Str <$> options))])].
Definition voteMsg (questionId : string) (optionIndex : value) (name : value)
  : value :=
  envelope "VOTE"
    [("questionId", Str questionId); ("optionIndex", optionIndex); ("name", name)].

(** The same messages as they reach the handler. *)
Definition join (roomId name role : string) : option value :=
  Some (joinMsg roomId name role).
Definition setQuestion (id text : string) (options : list string) : option value :=
  Some (setQuestionMsg id text options).
Definition vote (questionId : string) (optionIndex : value) (name : value)
  : option value :=
  Some (voteMsg questionId optionIndex name).

Definition int (z : Z) : value := Num (Finite (Q2Qc (inject_Z z))).
Definition half : value := Num (Finite (Q2Qc (1 # 2))).
Definition allOpen : conn → bool := λ _, true.

(** A host (connection 1) and a player (connection 2) join room [R1]. *)
Definition joins : list event :=
  [Connection 1; Connection 2;
   Message allOpen 1 (join "R1" "Host" "host");
   Message allOpen 2 (join "R1" "Ana" "player")].

(** Then the host puts a question with two options. *)
Definition asked : list event :=
  joins ++ [Message allOpen 1 (setQuestion "q1" "Color?" ["Red"; "Blue"])].

(** Then the player votes for the second option. *)
Definition voted : list event :=
  asked ++ [Message allOpen 2 (vote "q1" (int 1) (Str "Ana"))].

Definition after (es : list event) : state := default initial (run es initial).

Definition q1 : questionObj :=
  Question (Str "q1") (Str "Color?") [Str "Red"; Str "Blue"].

Definition snapshot (counts : list Z) (total : Z) : msgObj :=
  STATE (Str "R1") (Some q1) counts total.

(** The room [R1] of a state. *)
Definition R1 (st : state) : room := roomOf (rooms st) (IStr "R1").

(** The execution in which the player votes with [optionIndex] [0.5]. *)
Definition halfVoted : list event :=
  asked ++ [Message allOpen 2 (vote "q1" half (Str "Ana"))].

(** A vote without a name. *)
Definition namelessVote : option value :=
  Some (envelope "VOTE" [("questionId", Str "q1"); ("optionIndex", int 0)]).

(** After the vote the host puts the same question again, and the player
    votes again. *)
Definition reasked : list event :=
  voted ++ [Message allOpen 1 (setQuestion "q1" "Color?" ["Red"; "Blue"])].
Definition revoted : list event :=
  reasked ++ [Message allOpen 2 (vote "q1" (int 0) (Str "Ana"))].

(** After the vote the host puts a second question, with three options. *)
Definition q2 : questionObj :=
  Question (Str "q2") (Str "Size?") [Str "S"; Str "M"; Str "L"].
Definition askedNext : list event :=
  voted ++ [Message allOpen 1 (setQuestion "q2" "Size?" ["S"; "M"; "L"])].

(** After the player's vote the host votes too, under the name Bob. *)
Definition votedTwice : list event :=
  voted ++ [Message allOpen 1 (vote "q1" (int 0) (Str "Bob"))].

(** Connection 1 joins [R1] as host, puts a question and gets a vote; it
    joins [R2] and puts a question there; it closes, and the player joins
    [R2]. *)
Definition moved1 : list event :=
  [Message allOpen 1 (join "R1" "Host" "host");
   Message allOpen 2 (join "R1" "Ana" "player");
   Message allOpen 1 (setQuestion "q1" "Color?" ["Red"; "Blue"]);
   Message allOpen 2 (vote "q1" (int 1) (Str "Ana"))].
Definition moved2 : list event :=
  moved1 ++ [Message allOpen 1 (join "R2" "Host" "host");
             Message allOpen 1 (setQuestion "q2" "Size?" ["S"; "M"; "L"])].
Definition moved3 : list event :=
  moved2 ++ [Close 1; Message allOpen 2 (join "R2" "Ana" "player")].

(** Connection 1 joins [R1], then [R2], then [R1] again, and closes. *)
Definition returned : list event :=
  [Message allOpen 1 (join "R1" "Host" "host");
   Message allOpen 1 (join "R2" "Host" "host");
   Message allOpen 1 (join "R1" "Host" "host")].
Definition returnedClosed : list event := returned ++ [Close 1].
End Scenario.

(** ** Basic facts *)

Section Basics.
Context `{Runtime}.

Lemma getRoom_present rid rs r :
  rs !! identity rid = Some r → getRoom rid rs = (rs, r).
Proof. intros E. unfold getRoom. by rewrite E. Qed.


Lemma get_orEmpty msg k :
  get (if truthy msg then msg else Obj 0 []) k = get msg k.
Proof. by destruct msg as [| |[]|[q| |]|s| |]; simpl; try case_bool_decide. Qed.

Lemma strictEquals_Str v s : strictEquals v (Str s) = true ↔ v = Str s.
Proof.
  unfold strictEquals. rewrite bool_decide_eq_true.
  destruct v; simpl; split; intros E; by simplify_eq.
Qed.

Lemma strictEquals_Str_false v s : strictEquals v (Str s) = false ↔ v ≠ Str s.
Proof. rewrite <-strictEquals_Str. by destruct (strictEquals v (Str s)). Qed.

Lemma truthy_get_Obj v k : truthy (get v k) = true → ∃ r ps, v = Obj r ps.
Proof. destruct v; simpl; try done. eauto. Qed.

Lemma roomState_present rid rs r :
  rs !! identity rid = Some r →
  roomState rid rs = (rs, STATE rid (question r) (entries (counts r)) (total r)).
Proof. intros E. unfold roomState. by rewrite (getRoom_present _ _ _ E). Qed.

Lemma broadcast_present isOpen rid m rs r :
  rs !! identity rid = Some r →
  broadcast isOpen rid m rs
    = (rs, flat_map (λ client, safeSend isOpen client m) (clients r)).
Proof. intros E. unfold broadcast. by rewrite (getRoom_present _ _ _ E). Qed.

(** In a state that satisfies [joinedRoomsExist], line 91 finds the room of
    a joined connection and creates nothing. *)
Lemma getRoom_joined st ws :
  joinedRoomsExist st →
  truthy (roomId (metaOf st ws)) = true →
  ∃ r, rooms st !! identity (roomId (metaOf st ws)) = Some r
       ∧ getRoom (roomId (metaOf st ws)) (rooms st) = (rooms st, r).
Proof.
  intros Hwf Hj. unfold metaOf in *.
  destruct (metas st !! ws) as [m|] eqn:E; simpl in *; [|done].
  destruct (Hwf _ _ E Hj) as [r Hr]. exists r. split; [done|].
  by apply getRoom_present.
Qed.

Lemma elem_of_setAdd (x y : conn) s : x ∈ setAdd y s ↔ x = y ∨ x ∈ s.
Proof.
  unfold setAdd. case_bool_decide as E.
  - split; [by right|]. by intros [-> | ?].
  - rewrite elem_of_app, list_elem_of_singleton. tauto.
Qed.

Lemma elem_of_setDelete (x y : conn) s : x ∈ setDelete y s ↔ x ≠ y ∧ x ∈ s.
Proof. unfold setDelete. by rewrite list_elem_of_filter. Qed.

Lemma safeSend_recipient isOpen ws m c m' :
  (c, m') ∈ safeSend isOpen ws m → c = ws ∧ m' = m.
Proof.
  unfold safeSend. destruct (isOpen ws).
  - by intros [= -> ->]%list_elem_of_singleton.
  - by intros ?%elem_of_nil.
Qed.

Lemma state_eta st : State (rooms st) (metas st) = st.
Proof. by destruct st. Qed.
End Basics.

(** ** Rejected messages *)

Section Rejections.
Context `{Runtime}.

Lemma onJoin_invalid isOpen ws payload st :
  validJoin payload = false →
  ∃ e, onJoin isOpen ws payload st
       = Completed st (safeSend isOpen ws (errorMsg e)).
Proof.
  unfold validJoin, onJoin. intros Hv.
  destruct (truthy (get payload "roomId")), (truthy (get payload "name")),
    (truthy (get payload "role")); simpl in *; eauto.
  rewrite Hv. simpl. eauto.
Qed.

(** A connection without a room gets [NotJoined] for every command that is
    not a [JOIN]. *)
Lemma unjoined_command isOpen ws msg st :
  truthy (roomId (metaOf st ws)) = false →
  truthy (get msg "type") = true → truthy (get msg "payload") = true →
  get msg "type" ≠ Str "JOIN" →
  onMessage isOpen ws (Some msg) st
  = Completed st (safeSend isOpen ws (errorMsg Err.NotJoined)).
Proof.
  intros Hun Ht Hp Hj. unfold onMessage. rewrite !get_orEmpty, Ht, Hp.
  apply strictEquals_Str_false in Hj. rewrite Hj, Hun. done.
Qed.

(** Whatever such a connection sends, short of a valid [JOIN], is answered
    with an error and changes nothing. *)
Lemma unjoined_not_validJoin isOpen ws raw st :
  truthy (roomId (metaOf st ws)) = false →
  isValidJoin raw = false →
  ∃ e, onMessage isOpen ws raw st
       = Completed st (safeSend isOpen ws (errorMsg e)).
Proof.
  intros Hun. destruct raw as [msg|]; simpl; [|eauto].
  rewrite !get_orEmpty.
  destruct (truthy (get msg "type")), (truthy (get msg "payload"));
    simpl; eauto.
  destruct (strictEquals (get msg "type") (Str "JOIN")); simpl.
  - apply onJoin_invalid.
  - rewrite Hun. simpl. eauto.
Qed.

(** C8.  For a connection that has not joined (its [meta] carries no room),
    every command whose type is not [JOIN] is answered with [NotJoined] to
    that connection and leaves the state as it was; and every message that
    is not a successful [JOIN], a failed [JOIN] among them, is answered with
    an error to that connection and leaves the state as it was, so that the
    connection stays unjoined and enters no room. *)
Theorem unjoined_rejected isOpen ws raw st :
  truthy (roomId (metaOf st ws)) = false →
  (∀ msg, raw = Some msg →
     truthy (get msg "type") = true → truthy (get msg "payload") = true →
     get msg "type" ≠ Str "JOIN" →
     onMessage isOpen ws raw st
     = Completed st (safeSend isOpen ws (errorMsg Err.NotJoined)))
  ∧ (isValidJoin raw = false →
     ∃ e, onMessage isOpen ws raw st
          = Completed st (safeSend isOpen ws (errorMsg e))).
Proof.
  intros Hun. split.
  - intros msg -> Ht Hp Hj. by apply unjoined_command.
  - by apply unjoined_not_validJoin.
Qed.

(** Past line 88 the handler works on the room of the connection, which
    exists already in a state that satisfies [joinedRoomsExist]. *)
Lemma onMessage_joined isOpen ws msg st :
  joinedRoomsExist st →
  truthy (get msg "type") = true → truthy (get msg "payload") = true →
  get msg "type" ≠ Str "JOIN" →
  truthy (roomId (metaOf st ws)) = true →
  ∃ r, rooms st !! identity (roomId (metaOf st ws)) = Some r ∧
    onMessage isOpen ws (Some msg) st =
      if strictEquals (get msg "type") (Str "HOST_SET_QUESTION")
      then onSetQuestion isOpen ws (get msg "payload")
             (roomId (metaOf st ws)) (rooms st) r st
      else if strictEquals (get msg "type") (Str "VOTE")
      then onVote isOpen ws (get msg "payload")
             (roomId (metaOf st ws)) (rooms st) r st
      else Completed st (safeSend isOpen ws (errorMsg Err.UnsupportedType)).
Proof.
  intros Hwf Ht Hp Hj Hm.
  destruct (getRoom_joined st ws Hwf Hm) as (r & Hr & Hg).
  exists r. split; [done|].
  unfold onMessage. rewrite !get_orEmpty, Ht, Hp.
  apply strictEquals_Str_false in Hj. rewrite Hj, Hm. simpl.
  rewrite Hg. by rewrite state_eta.
Qed.

Lemma onSetQuestion_field_missing isOpen ws payload rid rs r st :
  get payload "question" = Undefined
  ∨ (∃ k, k ∈ ["id"; "text"; "options"]
          ∧ get (get payload "question") k = Undefined) →
  ∃ e, onSetQuestion isOpen ws payload rid rs r st
       = Completed (State rs (metas st)) (safeSend isOpen ws (errorMsg e)).
Proof.
  intros Hmiss. unfold onSetQuestion.
  destruct (strictEquals (role (metaOf st ws)) (Str "host")); simpl; [|eauto].
  destruct Hmiss as [Hq | (k & Hk & Hq)].
  - rewrite Hq. simpl. eauto.
  - set_unfold in Hk.
    destruct Hk as [-> | [-> | [-> | []]]]; rewrite Hq; simpl;
      rewrite ?orb_true_r; eauto.
Qed.

Lemma onVote_field_missing isOpen ws payload rid rs r st k :
  (∀ q, question r = Some q → truthy (qid q) = true) →
  k ∈ ["questionId"; "optionIndex"; "name"] →
  get payload k = Undefined →
  ∃ e, onVote isOpen ws payload rid rs r st
       = Completed (State rs (metas st)) (safeSend isOpen ws (errorMsg e)).
Proof.
  intros Hid Hk Hmiss. unfold onVote.
  destruct (question r) as [q|] eqn:Hq; [|eauto].
  specialize (Hid q eq_refl).
  destruct (strictEquals (get payload "questionId") (qid q)) eqn:Heq;
    simpl; [|eauto].
  destruct (get payload "optionIndex") as [| | |index| | |] eqn:Hi; eauto.
  destruct (ltZero index || geLength index _); [eauto|].
  destruct (truthy (get payload "name")) eqn:Hn; simpl; [|eauto].
  set_unfold in Hk. destruct Hk as [-> | [-> | [-> | []]]].
  - apply bool_decide_eq_true in Heq. rewrite Hmiss in Heq. simpl in Heq.
    destruct (qid q); by simplify_eq.
  - by rewrite Hmiss in Hi.
  - by rewrite Hmiss in Hn.
Qed.

Lemma validJoin_field_missing payload k :
  k ∈ ["roomId"; "name"; "role"] →
  get payload k = Undefined → validJoin payload = false.
Proof.
  intros Hk Hmiss. unfold validJoin. set_unfold in Hk.
  destruct Hk as [-> | [-> | [-> | []]]]; rewrite Hmiss; simpl;
    by rewrite ?andb_false_r.
Qed.

Lemma unsupported_not_validJoin raw :
  unsupported raw → isValidJoin raw = false.
Proof.
  intros Hu. unfold isValidJoin.
  destruct Hu as [|msg E|msg E|msg E|msg k E Hk Hmiss|msg E Hmiss
                  |msg k E Hk Hmiss|msg k E Hk Hmiss]; try done.
  - by rewrite E.
  - by rewrite E, andb_false_r.
  - assert (strictEquals (get msg "type") (Str "JOIN") = false) as ->
      by (apply strictEquals_Str_false; set_solver).
    by rewrite andb_false_r.
  - by rewrite (validJoin_field_missing _ _ Hk Hmiss), andb_false_r.
  - rewrite E. by rewrite andb_false_r.
  - rewrite E. by rewrite andb_false_r.
  - rewrite E. by rewrite andb_false_r.
Qed.

(** C6.  In a state that satisfies the invariants of reachable states, a
    message that does not parse, has no type or no payload, has an unknown
    type, or lacks a required field of its payload is answered with one
    [ERROR], handed to [safeSend] for the sending connection and for no
    other, and leaves the state, and so every room, as it was. *)
Theorem unsupported_rejected isOpen ws raw st :
  joinedRoomsExist st → questionsHaveId st →
  unsupported raw →
  ∃ e, onMessage isOpen ws raw st
       = Completed st (safeSend isOpen ws (errorMsg e))
       ∧ ∀ c m, (c, m) ∈ safeSend isOpen ws (errorMsg e) → c = ws ∧ m = ERROR e.
Proof.
  intros Hwf Hqi Hu.
  cut (∃ e, onMessage isOpen ws raw st
            = Completed st (safeSend isOpen ws (errorMsg e))).
  { intros [e He]. exists e. split; [done|]. apply safeSend_recipient. }
  destruct (truthy (roomId (metaOf st ws))) eqn:Hm; last first.
  { apply unjoined_not_validJoin; [done|]. by apply unsupported_not_validJoin. }
  assert (Hfalsy : ∀ msg, truthy (get msg "type") && truthy (get msg "payload")
                          = false →
     onMessage isOpen ws (Some msg) st
     = Completed st (safeSend isOpen ws (errorMsg Err.MalformedEnvelope))).
  { intros msg E. unfold onMessage. rewrite !get_orEmpty.
    by destruct (truthy (get msg "type")), (truthy (get msg "payload")). }
  assert (Hcmd : ∀ msg, get msg "type" ≠ Str "JOIN" →
     (∀ r, rooms st !! identity (roomId (metaOf st ws)) = Some r →
        ∃ e, (if strictEquals (get msg "type") (Str "HOST_SET_QUESTION")
              then onSetQuestion isOpen ws (get msg "payload")
                     (roomId (metaOf st ws)) (rooms st) r st
              else if strictEquals (get msg "type") (Str "VOTE")
              then onVote isOpen ws (get msg "payload")
                     (roomId (metaOf st ws)) (rooms st) r st
              else Completed st
                     (safeSend isOpen ws (errorMsg Err.UnsupportedType)))
             = Completed st (safeSend isOpen ws (errorMsg e))) →
     ∃ e, onMessage isOpen ws (Some msg) st
          = Completed st (safeSend isOpen ws (errorMsg e))).
  { intros msg Hj Hbody.
    destruct (truthy (get msg "type") && truthy (get msg "payload")) eqn:Hwfm.
    - apply andb_true_iff in Hwfm as [Ht Hp].
      destruct (onMessage_joined isOpen ws msg st Hwf Ht Hp Hj Hm)
        as (r & Hr & ->). by apply Hbody.
    - eexists. by apply Hfalsy. }
  destruct Hu as [|msg E|msg E|msg E|msg k E Hk Hmiss|msg E Hmiss
                  |msg k E Hk Hmiss|msg k E Hk Hmiss].
  - simpl. eauto.
  - eexists. apply Hfalsy. by rewrite E.
  - eexists. apply Hfalsy. by rewrite E, andb_false_r.
  - apply Hcmd; [set_solver|]. intros r Hr.
    assert (strictEquals (get msg "type") (Str "HOST_SET_QUESTION") = false)
      as -> by (apply strictEquals_Str_false; set_solver).
    assert (strictEquals (get msg "type") (Str "VOTE") = false)
      as -> by (apply strictEquals_Str_false; set_solver).
    eauto.
  - destruct (truthy (get msg "type") && truthy (get msg "payload")) eqn:Hwfm;
      [|eexists; by apply Hfalsy].
    apply andb_true_iff in Hwfm as [Ht Hp].
    unfold onMessage. rewrite !get_orEmpty, Ht, Hp, E. simpl.
    apply onJoin_invalid. by eapply validJoin_field_missing.
  - apply Hcmd; [by rewrite E|]. intros r Hr. rewrite E. simpl.
    edestruct onSetQuestion_field_missing as [e ->]; [by left|].
    rewrite state_eta. eauto.
  - apply Hcmd; [by rewrite E|]. intros r Hr. rewrite E. simpl.
    edestruct onSetQuestion_field_missing as [e ->]; [right; eauto|].
    rewrite state_eta. eauto.
  - apply Hcmd; [by rewrite E|]. intros r Hr. rewrite E. simpl.
    edestruct (onVote_field_missing isOpen ws (get msg "payload")) as [e ->];
      [|done..|].
    + intros q Hq. by apply (Hqi _ _ Hr).
    + rewrite state_eta. eauto.
Qed.
End Rejections.

(** ** The shape of a transition *)

Section Transitions.
Context `{Runtime}.

Lemma getRoom_roomOf rid rs :
  getRoom rid rs
  = (<[identity rid := roomOf rs (identity rid)]> rs, roomOf rs (identity rid)).
Proof.
  unfold getRoom, roomOf. destruct (rs !! identity rid) eqn:E; simpl; [|done].
  by rewrite insert_id.
Qed.

Lemma roomState_insert rid rs r :
  roomState rid (<[identity rid := r]> rs)
  = (<[identity rid := r]> rs,
     STATE rid (question r) (entries (counts r)) (total r)).
Proof. apply roomState_present. by rewrite lookup_insert_eq. Qed.

Lemma broadcast_insert isOpen rid m rs r :
  broadcast isOpen rid m (<[identity rid := r]> rs)
  = (<[identity rid := r]> rs,
     flat_map (λ client, safeSend isOpen client m) (clients r)).
Proof. apply broadcast_present. by rewrite lookup_insert_eq. Qed.

Lemma onJoin_valid isOpen ws payload st :
  validJoin payload = true →
  let r := roomOf (rooms st) (identity (get payload "roomId")) in
  onJoin isOpen ws payload st
  = Completed
      (State (<[identity (get payload "roomId") := joined ws r]> (rooms st))
             (<[ws := Meta (get payload "roomId") (get payload "name")
                           (get payload "role")]> (metas st)))
      (safeSend isOpen ws
         (STATE (get payload "roomId") (question r) (entries (counts r))
                (total r))).
Proof.
  unfold validJoin, onJoin. intros Hv.
  repeat (apply andb_true_iff in Hv as [Hv ?]).
  rewrite Hv. repeat match goal with E : _ = true |- _ => rewrite E end.
  simpl. rewrite getRoom_roomOf, insert_insert_eq, roomState_insert. done.
Qed.

Lemma onJoin_transition isOpen ws payload st st' sent :
  onJoin isOpen ws payload st = Completed st' sent →
  ∀ oi, transition ws oi st st'.
Proof.
  destruct (validJoin payload) eqn:Hv.
  - rewrite (onJoin_valid _ _ _ _ Hv). intros [= <- _] oi. constructor.
    unfold validJoin in Hv. by repeat (apply andb_true_iff in Hv as [Hv ?]).
  - destruct (onJoin_invalid isOpen ws payload st Hv) as [e ->].
    intros [= <- _] oi. constructor.
Qed.

(** The two branches that work on the room of the connection leave the
    map with that room replaced by a [roomChange] of it. *)
Lemma onSetQuestion_change isOpen ws payload st st' sent :
  let m := metaOf st ws in
  let k := identity (roomId m) in
  onSetQuestion isOpen ws payload (roomId m)
    (<[k := roomOf (rooms st) k]> (rooms st)) (roomOf (rooms st) k) st
  = Completed st' sent →
  ∀ oi, ∃ r', roomChange ws m oi (roomOf (rooms st) k) r'
              ∧ st' = State (<[k := r']> (rooms st)) (metas st).
Proof.
  intros m k. unfold onSetQuestion. fold m.
  destruct (strictEquals (role m) (Str "host")) eqn:Hrole; simpl;
    [|intros [= <- _] oi; eexists; split; [apply ChangeNone|done]].
  apply strictEquals_Str in Hrole.
  set (q := get payload "question").
  destruct (negb (truthy q) || negb (truthy (get q "id"))
            || negb (truthy (get q "text"))
            || negb (isArray (get q "options"))) eqn:Hq;
    [intros [= <- _] oi; eexists; split; [apply ChangeNone|done]|].
  destruct ((length (arrayElems (get q "options")) <? 2)%nat
            || (4 <? length (arrayElems (get q "options")))%nat) eqn:Hlen;
    [intros [= <- _] oi; eexists; split; [apply ChangeNone|done]|].
  rewrite insert_insert_eq, roomState_insert, broadcast_insert.
  intros [= <- _] oi. eexists. split; [|done].
  apply (ChangeQuestion ws m oi _
           (Question (get q "id") (get q "text") (arrayElems (get q "options"))));
    simpl; [done| |].
  - repeat (apply orb_false_iff in Hq as [Hq ?]).
    by destruct (truthy (get q "id")).
  - apply orb_false_iff in Hlen as [?%Nat.ltb_ge ?%Nat.ltb_ge]. lia.
Qed.

Lemma onVote_change isOpen ws payload st st' sent :
  let m := metaOf st ws in
  let k := identity (roomId m) in
  onVote isOpen ws payload (roomId m)
    (<[k := roomOf (rooms st) k]> (rooms st)) (roomOf (rooms st) k) st
  = Completed st' sent →
  ∃ r', roomChange ws m (numericIndex payload) (roomOf (rooms st) k) r'
        ∧ st' = State (<[k := r']> (rooms st)) (metas st).
Proof.
  intros m k. unfold onVote, numericIndex.
  set (r := roomOf (rooms st) k).
  assert (Hnone : ∀ e,
    Completed (State (<[k := r]> (rooms st)) (metas st))
              (safeSend isOpen ws (errorMsg e)) = Completed st' sent →
    ∀ oi, ∃ r', roomChange ws m oi r r'
                ∧ st' = State (<[k := r']> (rooms st)) (metas st)).
  { intros e [= <- _] oi. eexists. split; [apply ChangeNone|done]. }
  destruct (question r) as [q|] eqn:Hq; [|intros; by eapply Hnone].
  destruct (strictEquals (get payload "questionId") (qid q)); simpl;
    [|intros; by eapply Hnone].
  destruct (get payload "optionIndex") as [| | |index| | |];
    try (intros; by eapply Hnone).
  destruct (ltZero index || geLength index (length (entries (counts r))))
    eqn:Hrange; [intros; by eapply Hnone|].
  destruct (truthy (get payload "name")); simpl; [|intros; by eapply Hnone].
  destruct (ballotKey (roomId m) (qid q) (get payload "name")) as [e|key];
    [done|].
  case_bool_decide as Hdup; [intros; by eapply Hnone|].
  rewrite insert_insert_eq, roomState_insert, broadcast_insert.
  intros [= <- _]. eexists. split; [|done].
  apply orb_false_iff in Hrange as [? ?].
  rewrite <-Hq. by eapply ChangeVote.
Qed.

Lemma onMessage_transition isOpen ws raw st st' sent :
  onMessage isOpen ws raw st = Completed st' sent →
  transition ws (indexOf raw) st st'.
Proof.
  unfold onMessage. destruct raw as [msg|]; [|intros [= <- _]; constructor].
  rewrite !get_orEmpty.
  destruct (negb (truthy (get msg "type")) || negb (truthy (get msg "payload")));
    [intros [= <- _]; constructor|].
  destruct (strictEquals (get msg "type") (Str "JOIN"));
    [intros; by eapply onJoin_transition|].
  destruct (truthy (roomId (metaOf st ws))) eqn:Hm; simpl;
    [|intros [= <- _]; constructor].
  rewrite getRoom_roomOf.
  destruct (strictEquals (get msg "type") (Str "HOST_SET_QUESTION")).
  { intros Hs.
    destruct (onSetQuestion_change _ _ _ _ _ _ Hs (indexOf (Some msg)))
      as (r' & Hc & ->).
    by constructor. }
  destruct (strictEquals (get msg "type") (Str "VOTE")).
  { intros (r' & Hc & ->)%onVote_change. by constructor. }
  intros [= <- _]. apply TRoom; [done|constructor].
Qed.

Lemma onClose_transition ws st : transition ws None st (onClose ws st).
Proof.
  unfold onClose. destruct (truthy (roomId (metaOf st ws))) eqn:Hm; simpl;
    [|constructor].
  rewrite getRoom_roomOf, insert_insert_eq. apply TRoom; [done|constructor].
Qed.

Lemma step_transition e st st' :
  step e st = Some st' → transition (connOf e) (eventIndex e) st st'.
Proof.
  destruct e as [ws|isOpen ws raw|ws]; simpl.
  - intros [= <-]. constructor.
  - destruct (onMessage isOpen ws raw st) eqn:E; [|done].
    intros [= <-]. by eapply onMessage_transition.
  - intros [= <-]. apply onClose_transition.
Qed.
End Transitions.

(** ** Invariants are preserved *)

Section Invariants.
Context `{Runtime}.

Lemma roomOf_insert (rs : gmap ident room) k k' r :
  roomOf (<[k := r]> rs) k' = if decide (k = k') then r else roomOf rs k'.
Proof.
  unfold roomOf. rewrite lookup_insert. by destruct (decide (k = k')).
Qed.

Lemma metaOf_insert rs (ms : gmap conn meta) ws ws' m :
  metaOf (State rs (<[ws := m]> ms)) ws'
  = if decide (ws = ws') then m else default newMeta (ms !! ws').
Proof.
  unfold metaOf. simpl. rewrite lookup_insert. by destruct (decide (ws = ws')).
Qed.

(** A property of rooms that holds of a fresh room and survives every
    change of a room holds in every room of the map after a transition. *)
Lemma transition_rooms_Forall (P : room → Prop) ws oi st st' :
  P newRoom →
  (∀ r, P r → P (joined ws r)) →
  (∀ m r r', roomChange ws m oi r r' → P r → P r') →
  transition ws oi st st' →
  map_Forall (λ _, P) (rooms st) → map_Forall (λ _, P) (rooms st').
Proof.
  intros Hnew Hjoin Hchange Ht Hall.
  assert (Hof : ∀ k, P (roomOf (rooms st) k)).
  { intros k. unfold roomOf. destruct (rooms st !! k) as [r|] eqn:E; simpl;
      [by eapply Hall|done]. }
  destruct Ht as [| |rid nm rl Hrid|r' Hm Hc]; simpl; try done.
  - apply map_Forall_insert_2; [|done]. apply Hjoin, Hof.
  - apply map_Forall_insert_2; [|done]. eapply Hchange; [done|apply Hof].
Qed.

Lemma transition_joinedRoomsExist ws oi st st' :
  transition ws oi st st' → joinedRoomsExist st → joinedRoomsExist st'.
Proof.
  unfold joinedRoomsExist. intros Ht Hwf.
  destruct Ht as [| |rid nm rl Hrid|r' Hm Hc]; simpl; try done.
  - apply map_Forall_insert_2; [done|]. done.
  - apply map_Forall_insert_2.
    + intros _. rewrite lookup_insert_eq. eauto.
    + intros ws' m E Hj. rewrite lookup_insert_is_Some. destruct
        (decide (identity rid = identity (roomId m))); [by left|right].
      split; [done|]. by eapply Hwf.
  - intros ws' m E Hj. rewrite lookup_insert_is_Some.
    destruct (decide (identity (roomId (metaOf st ws)) = identity (roomId m)));
      [by left|right].
    split; [done|]. by eapply Hwf.
Qed.

Lemma transition_questionsHaveId ws oi st st' :
  transition ws oi st st' → questionsHaveId st → questionsHaveId st'.
Proof.
  apply (transition_rooms_Forall
           (λ r, ∀ q, question r = Some q → truthy (qid q) = true)).
  - done.
  - by intros [].
  - intros m r r' Hc Hr. destruct Hc; simpl; try done.
    by intros ? [= <-].
Qed.

Lemma transition_oneBallotPerVote ws oi st st' :
  transition ws oi st st' → oneBallotPerVote st → oneBallotPerVote st'.
Proof.
  apply (transition_rooms_Forall (λ r, total r = Z.of_nat (size (votedBy r)))).
  - done.
  - by intros [].
  - intros m r r' Hc Hr. destruct Hc; simpl; try done.
    rewrite size_union, size_singleton by set_solver. lia.
Qed.

Lemma increment_length a index :
  length (entries (increment a index)) = length (entries a).
Proof.
  unfold increment. destruct (arrayIndex index), index; simpl; try done;
    apply length_alter.
Qed.

Lemma transition_countsMatchOptions ws oi st st' :
  transition ws oi st st' → countsMatchOptions st → countsMatchOptions st'.
Proof.
  apply (transition_rooms_Forall
           (λ r, length (entries (counts r))
                 = from_option (λ q, length (qoptions q)) 0%nat (question r))).
  - done.
  - by intros [].
  - intros m r r' Hc Hr. destruct Hc; simpl; try done.
    + apply length_replicate.
    + by rewrite increment_length.
Qed.

Lemma run_invariant (P : state → Prop) es st st' :
  (∀ e s s', step e s = Some s' → P s → P s') →
  run es st = Some st' → P st → P st'.
Proof.
  intros Hstep. revert st. induction es as [|e es IH]; simpl; intros st.
  - by intros [= <-].
  - destruct (step e st) as [s|] eqn:E; simpl; [|done].
    intros Hrun Hst. eapply IH; [done|]. by eapply Hstep.
Qed.

(** Every state the server reaches satisfies the four invariants. *)
Lemma reachable_invariants es st :
  run es initial = Some st →
  joinedRoomsExist st ∧ questionsHaveId st ∧ oneBallotPerVote st
  ∧ countsMatchOptions st.
Proof.
  intros Hrun.
  apply (run_invariant
           (λ s, joinedRoomsExist s ∧ questionsHaveId s ∧ oneBallotPerVote s
                 ∧ countsMatchOptions s)
           es initial); [|done|].
  - intros e s s' Hs%step_transition (? & ? & ? & ?).
    split_and!;
      [by eapply transition_joinedRoomsExist
      |by eapply transition_questionsHaveId
      |by eapply transition_oneBallotPerVote
      |by eapply transition_countsMatchOptions].
  - split_and!; unfold joinedRoomsExist, questionsHaveId, oneBallotPerVote,
      countsMatchOptions; simpl; apply map_Forall_empty.
Qed.
End Invariants.

(** ** Accepted commands *)

Section Commands.
Context `{Runtime}.

Lemma onMessage_command isOpen ws msg st :
  truthy (get msg "type") = true → truthy (get msg "payload") = true →
  get msg "type" ≠ Str "JOIN" →
  truthy (roomId (metaOf st ws)) = true →
  let m := metaOf st ws in
  let k := identity (roomId m) in
  let r := roomOf (rooms st) k in
  onMessage isOpen ws (Some msg) st =
    if strictEquals (get msg "type") (Str "HOST_SET_QUESTION")
    then onSetQuestion isOpen ws (get msg "payload") (roomId m)
           (<[k := r]> (rooms st)) r st
    else if strictEquals (get msg "type") (Str "VOTE")
    then onVote isOpen ws (get msg "payload") (roomId m)
           (<[k := r]> (rooms st)) r st
    else Completed (State (<[k := r]> (rooms st)) (metas st))
           (safeSend isOpen ws (errorMsg Err.UnsupportedType)).
Proof.
  intros Ht Hp Hj Hm m k r. unfold onMessage.
  rewrite !get_orEmpty, Ht, Hp.
  apply strictEquals_Str_false in Hj. rewrite Hj, Hm. simpl.
  by rewrite getRoom_roomOf.
Qed.

Lemma truthy_Obj v k : truthy (get v k) = true → truthy v = true.
Proof. by intros (? & ? & ->)%truthy_get_Obj. Qed.

(** The outcome of a [HOST_SET_QUESTION] that passes every check. *)
Lemma setQuestion_accepted isOpen ws msg st ref options :
  let m := metaOf st ws in
  let k := identity (roomId m) in
  let r := roomOf (rooms st) k in
  let q := get (get msg "payload") "question" in
  truthy (roomId m) = true →
  role m = Str "host" →
  get msg "type" = Str "HOST_SET_QUESTION" →
  truthy (get q "id") = true → truthy (get q "text") = true →
  get q "options" = Arr ref options →
  (2 ≤ length options ≤ 4)%nat →
  onMessage isOpen ws (Some msg) st
  = Completed
      (State (<[k := Room (Some (Question (get q "id") (get q "text") options))
                          (zeros (length options)) 0 ∅ (clients r)]>
                (rooms st))
             (metas st))
      (flat_map
         (λ client, safeSend isOpen client
            (STATE (roomId m)
               (Some (Question (get q "id") (get q "text") options))
               (replicate (length options) 0%Z) 0))
         (clients r)).
Proof.
  intros m k r q Hm Hrole Ht Hid Htext Hopts Hlen.
  assert (truthy q = true) as Hq by by eapply truthy_Obj.
  assert (truthy (get msg "payload") = true) as Hp by by eapply truthy_Obj.
  rewrite onMessage_command; [|by rewrite Ht|done|by rewrite Ht|done].
  rewrite Ht. simpl. unfold onSetQuestion. fold m q.
  rewrite Hrole. simpl. rewrite Hq, Hid, Htext, Hopts. simpl.
  assert ((length options <? 2)%nat = false) as -> by (apply Nat.ltb_ge; lia).
  assert ((4 <? length options)%nat = false) as -> by (apply Nat.ltb_ge; lia).
  simpl. fold k.
  by rewrite insert_insert_eq, roomState_insert, broadcast_insert.
Qed.

(** The outcome of a [VOTE] that passes every check. *)
Lemma vote_accepted isOpen ws msg st q index key :
  let m := metaOf st ws in
  let k := identity (roomId m) in
  let r := roomOf (rooms st) k in
  let payload := get msg "payload" in
  truthy (roomId m) = true →
  get msg "type" = Str "VOTE" →
  question r = Some q →
  strictEquals (get payload "questionId") (qid q) = true →
  get payload "optionIndex" = Num index →
  ltZero index = false →
  geLength index (length (entries (counts r))) = false →
  truthy (get payload "name") = true →
  ballotKey (roomId m) (qid q) (get payload "name") = inr key →
  key ∉ votedBy r →
  onMessage isOpen ws (Some msg) st
  = Completed
      (State (<[k := Room (question r) (increment (counts r) index)
                          (total r + 1) ({[key]} ∪ votedBy r) (clients r)]>
                (rooms st))
             (metas st))
      (flat_map
         (λ client, safeSend isOpen client
            (STATE (roomId m) (question r)
               (entries (increment (counts r) index)) (total r + 1)))
         (clients r)).
Proof.
  intros m k r payload Hm Ht Hq Hqid Hi Hlt Hge Hn Hkey Hfresh.
  assert (truthy payload = true) as Hp by by eapply truthy_Obj.
  rewrite onMessage_command; [|by rewrite Ht|done|by rewrite Ht|done].
  rewrite Ht. simpl. unfold onVote. fold m k r payload.
  rewrite Hq, Hqid, Hi, Hlt, Hge, Hn, Hkey. simpl.
  rewrite bool_decide_eq_false_2 by done.
  by rewrite insert_insert_eq, roomState_insert, broadcast_insert.
Qed.

Lemma joined_room_unchanged st ws :
  joinedRoomsExist st →
  truthy (roomId (metaOf st ws)) = true →
  let k := identity (roomId (metaOf st ws)) in
  State (<[k := roomOf (rooms st) k]> (rooms st)) (metas st) = st
  ∧ rooms st !! k = Some (roomOf (rooms st) k).
Proof.
  intros Hwf Hm k. destruct (getRoom_joined st ws Hwf Hm) as (r & Hr & _).
  fold k in Hr. unfold roomOf. rewrite Hr. simpl.
  by rewrite insert_id, state_eta.
Qed.

(** C7.  A joined session whose role is not [host] gets [Forbidden] for
    every [HOST_SET_QUESTION] command, and the state stays as it was; and
    whenever a message changes the question of some room, the sender's role
    is [host] and the room is the sender's own. *)
Theorem only_host_sets_question isOpen ws raw st :
  joinedRoomsExist st →
  (∀ msg, raw = Some msg →
     truthy (roomId (metaOf st ws)) = true →
     role (metaOf st ws) ≠ Str "host" →
     get msg "type" = Str "HOST_SET_QUESTION" →
     truthy (get msg "payload") = true →
     onMessage isOpen ws raw st
     = Completed st (safeSend isOpen ws (errorMsg Err.Forbidden)))
  ∧ (∀ st' sent k,
       onMessage isOpen ws raw st = Completed st' sent →
       question (roomOf (rooms st') k) ≠ question (roomOf (rooms st) k) →
       role (metaOf st ws) = Str "host"
       ∧ k = identity (roomId (metaOf st ws))).
Proof.
  intros Hwf. split.
  - intros msg -> Hm Hrole Ht Hp.
    rewrite onMessage_command; [|by rewrite Ht|done|by rewrite Ht|done].
    rewrite Ht. simpl. unfold onSetQuestion.
    apply strictEquals_Str_false in Hrole. rewrite Hrole. simpl.
    by destruct (joined_room_unchanged st ws Hwf Hm) as [-> _].
  - intros st' sent k Ht%onMessage_transition Hq.
    destruct Ht as [| |rid nm rl Hrid|r' Hm Hc]; simpl in *; try done.
    + rewrite roomOf_insert in Hq. by destruct (decide (identity rid = k)) as [<-|].
    + rewrite roomOf_insert in Hq.
      destruct (decide (identity (roomId (metaOf st ws)) = k)) as [<-|];
        [|done].
      by destruct Hc.
Qed.

(** C9.  A [JOIN] with truthy [roomId] and [name] and role [host] or
    [player] binds the three to the connection, adds the connection to the
    clients of the room (a fresh room, with no question, no counts, total
    [0] and no ballots, when the map has none under that key), and sends
    the snapshot of the room to the joining connection and to nobody
    else. *)
Theorem join_binds_session isOpen ws msg st :
  let payload := get msg "payload" in
  let rid := get payload "roomId" in
  let r := roomOf (rooms st) (identity rid) in
  get msg "type" = Str "JOIN" →
  truthy rid = true → truthy (get payload "name") = true →
  get payload "role" = Str "host" ∨ get payload "role" = Str "player" →
  ∃ st',
    onMessage isOpen ws (Some msg) st
    = Completed st'
        (safeSend isOpen ws
           (STATE rid (question r) (entries (counts r)) (total r)))
    ∧ metas st' = <[ws := Meta rid (get payload "name") (get payload "role")]>
                    (metas st)
    ∧ rooms st' = <[identity rid :=
                     Room (question r) (counts r) (total r) (votedBy r)
                          (setAdd ws (clients r))]> (rooms st)
    ∧ member st' (identity rid) ws
    ∧ (rooms st !! identity rid = None → r = Room None (CountsArray [] ∅) 0 ∅ [])
    ∧ (∀ r0, rooms st !! identity rid = Some r0 → r = r0).
Proof.
  intros payload rid r Ht Hrid Hname Hrole.
  assert (truthy payload = true) as Hp by by eapply truthy_Obj.
  assert (validJoin payload = true) as Hv.
  { unfold validJoin. fold rid. rewrite Hrid, Hname. simpl.
    destruct Hrole as [E|E]; by rewrite E. }
  eexists. split_and!.
  - unfold onMessage. rewrite !get_orEmpty, Ht. fold payload. rewrite Hp.
    simpl. by rewrite (onJoin_valid _ _ _ _ Hv).
  - done.
  - done.
  - eexists. simpl. rewrite lookup_insert_eq. split; [done|]. simpl.
    apply elem_of_setAdd. by left.
  - intros E. unfold r, roomOf. by rewrite E.
  - intros r0 E. unfold r, roomOf. by rewrite E.
Qed.

(** What [broadcast] hands to [ws.send]: the message, once for each client
    whose socket is open, in the order of [clients]. *)
Lemma fanout_open isOpen (m : msgObj) (cs : list conn) :
  flat_map (λ client, safeSend isOpen client m) cs
  = (λ c, (c, m)) <$> filter (λ c, isOpen c = true) cs.
Proof.
  induction cs as [|c cs IH]; [done|].
  cbn [flat_map]. rewrite IH, filter_cons. unfold safeSend.
  destruct (isOpen c); by case_decide.
Qed.

Lemma elem_of_fanout_open (isOpen : conn → bool) (m : msgObj)
    (cs : list conn) (c : conn) (m' : msgObj) :
  (c, m') ∈ (λ c, (c, m)) <$> filter (λ c, isOpen c = true) cs
  ↔ c ∈ cs ∧ isOpen c = true ∧ m' = m.
Proof.
  rewrite list_elem_of_fmap. split.
  - intros (c' & [= -> ->] & [? ?]%list_elem_of_filter). done.
  - intros (? & ? & ->). exists c. split; [done|].
    by apply list_elem_of_filter.
Qed.

(** C4.  A [HOST_SET_QUESTION] from a joined host, with a question that has
    a truthy [id] and [text] and two to four options, replaces the question
    of the room, sets [counts] to as many zeros as there are options,
    [total] to [0] and [votedBy] to the empty set, and keeps the clients.
    What it sends is the new snapshot, once to every client of the room
    whose socket is open, in the order of [clients], and nothing else.  In
    the state it leaves, a vote for the new question by any connection of
    the room is accepted whatever its name, so also under a name that had
    voted on the question before. *)
Theorem setQuestion_resets isOpen ws msg st ref options :
  let m := metaOf st ws in
  let k := identity (roomId m) in
  let r := roomOf (rooms st) k in
  let q := get (get msg "payload") "question" in
  let question' := Question (get q "id") (get q "text") options in
  let room' := Room (Some question') (CountsArray (replicate (length options) 0%Z) ∅)
                    0 ∅ (clients r) in
  let st' := State (<[k := room']> (rooms st)) (metas st) in
  let snapshot :=
    STATE (roomId m) (Some question') (replicate (length options) 0%Z) 0 in
  let sent := (λ c, (c, snapshot)) <$> filter (λ c, isOpen c = true) (clients r) in
  truthy (roomId m) = true →
  role m = Str "host" →
  get msg "type" = Str "HOST_SET_QUESTION" →
  truthy (get q "id") = true → truthy (get q "text") = true →
  get q "options" = Arr ref options →
  (2 ≤ length options ≤ 4)%nat →
  onMessage isOpen ws (Some msg) st = Completed st' sent
  ∧ (∀ c m', (c, m') ∈ sent ↔ c ∈ clients r ∧ isOpen c = true ∧ m' = snapshot)
  ∧ (∀ isOpen' ws' vote index key,
       truthy (roomId (metaOf st' ws')) = true →
       identity (roomId (metaOf st' ws')) = k →
       get vote "type" = Str "VOTE" →
       strictEquals (get (get vote "payload") "questionId") (get q "id") = true →
       get (get vote "payload") "optionIndex" = Num index →
       ltZero index = false → geLength index (length options) = false →
       truthy (get (get vote "payload") "name") = true →
       ballotKey (roomId (metaOf st' ws')) (get q "id")
                 (get (get vote "payload") "name") = inr key →
       ∃ st'' sent'',
         onMessage isOpen' ws' (Some vote) st' = Completed st'' sent''
         ∧ votedBy (roomOf (rooms st'') k) = {[key]}
         ∧ total (roomOf (rooms st'') k) = 1%Z).
Proof.
  intros m k r q question' room' st' snapshot sent
    Hm Hrole Ht Hid Htext Hopts Hlen.
  split_and!.
  - unfold sent. rewrite <-fanout_open.
    by apply (setQuestion_accepted isOpen ws msg st ref options).
  - intros c m'. apply elem_of_fanout_open.
  - intros isOpen' ws' vote index key Hm' Hk Hvt Hqid Hi Hlt Hge Hn Hkey.
    assert (roomOf (rooms st') (identity (roomId (metaOf st' ws'))) = room')
      as Hr'.
    { rewrite Hk. unfold st'. simpl. rewrite roomOf_insert.
      by rewrite decide_True. }
    do 2 eexists. split.
    + apply (vote_accepted isOpen' ws' vote st' question' index key);
        try done; rewrite ?Hr'; simpl; try done.
      by rewrite length_replicate.
    + rewrite !Hr'. cbn [rooms].
      rewrite Hk, roomOf_insert, decide_True by done.
      simpl. split; [apply (right_id_L ∅ (∪))|done].
Qed.
End Commands.

(** ** Membership *)

Section Membership.
Context `{Runtime}.

Lemma member_roomOf st k c : member st k c ↔ c ∈ clients (roomOf (rooms st) k).
Proof.
  unfold member, roomOf. destruct (rooms st !! k) as [r|]; simpl.
  - split; [by intros (? & [= <-] & ?)|eauto].
  - split; [by intros (? & [=] & _)|]. by intros ?%elem_of_nil.
Qed.

(** An event of one connection neither adds another connection to a room
    nor removes it from one, and leaves its [meta] alone. *)
Lemma transition_other ws oi st st' c :
  transition ws oi st st' → c ≠ ws →
  metaOf st' c = metaOf st c ∧ ∀ k, member st' k c ↔ member st k c.
Proof.
  intros Ht Hc.
  destruct Ht as [| |rid nm rl Hrid|r' Hm Hchange]; simpl.
  - done.
  - split; [|done]. by rewrite metaOf_insert, decide_False.
  - split.
    + by rewrite metaOf_insert, decide_False.
    + intros k. rewrite !member_roomOf. simpl. rewrite roomOf_insert.
      destruct (decide (identity rid = k)) as [<-|]; [|done]. simpl.
      rewrite elem_of_setAdd. split; [by intros [?|?]|by right].
  - split; [done|].
    intros k. rewrite !member_roomOf. simpl. rewrite roomOf_insert.
    destruct (decide (identity (roomId (metaOf st ws)) = k)) as [<-|]; [|done].
    destruct Hchange; simpl; try done.
    rewrite elem_of_setDelete. split; [by intros [_ ?]|done].
Qed.

Lemma run_others ws es st st' :
  Forall (λ e, connOf e ≠ ws) es →
  run es st = Some st' →
  metaOf st' ws = metaOf st ws ∧ ∀ k, member st' k ws ↔ member st k ws.
Proof.
  intros Hes. revert st. induction Hes as [|e es He _ IH]; simpl; intros st.
  - by intros [= <-].
  - destruct (step e st) as [s|] eqn:E; simpl; [|done].
    intros (Hmeta & Hmem)%IH.
    destruct (transition_other _ _ _ _ ws (step_transition _ _ _ E))
      as [Hmeta' Hmem']; [done|].
    split; [congruence|]. intros k. by rewrite Hmem, Hmem'.
Qed.

Lemma onMessage_validJoin isOpen ws msg st :
  isValidJoin (Some msg) = true →
  let payload := get msg "payload" in
  let k := identity (get payload "roomId") in
  truthy (get payload "roomId") = true
  ∧ ∃ sent,
      onMessage isOpen ws (Some msg) st
      = Completed
          (State (<[k := joined ws (roomOf (rooms st) k)]> (rooms st))
                 (<[ws := Meta (get payload "roomId") (get payload "name")
                               (get payload "role")]> (metas st)))
          sent.
Proof.
  unfold isValidJoin. intros Hv.
  repeat (apply andb_true_iff in Hv as [Hv ?]). simpl. split.
  { unfold validJoin in *. by repeat (apply andb_true_iff in H0 as [H0 ?]). }
  eexists. unfold onMessage. rewrite !get_orEmpty, Hv.
  repeat match goal with E : _ = true |- _ => rewrite E end. simpl.
  by rewrite onJoin_valid.
Qed.

Lemma run_Message isOpen ws raw es st s :
  run (Message isOpen ws raw :: es) st = Some s →
  ∃ st1 sent, onMessage isOpen ws raw st = Completed st1 sent
              ∧ run es st1 = Some s.
Proof.
  simpl. destruct (onMessage isOpen ws raw st) as [st1 sent|]; [|done].
  simpl. eauto.
Qed.

Lemma onClose_joined ws st :
  truthy (roomId (metaOf st ws)) = true →
  let k := identity (roomId (metaOf st ws)) in
  let r := roomOf (rooms st) k in
  onClose ws st
  = State (<[k := Room (question r) (counts r) (total r) (votedBy r)
                       (setDelete ws (clients r))]> (rooms st))
          (metas st).
Proof.
  intros Hm. unfold onClose. rewrite Hm. simpl.
  by rewrite getRoom_roomOf, insert_insert_eq.
Qed.

Lemma broadcast_reaches isOpen rid m st c :
  member st (identity rid) c → isOpen c = true →
  (c, m) ∈ (broadcast isOpen rid m (rooms st)).2.
Proof.
  intros (r & Hr & Hc) Hopen.
  rewrite (broadcast_present _ _ _ _ _ Hr). simpl.
  apply list_elem_of_In, in_flat_map. exists c.
  split; [by apply list_elem_of_In|]. unfold safeSend. rewrite Hopen.
  by left.
Qed.

End Membership.

(** ** The tallies *)

Section Tallies.
Context `{Runtime}.

Lemma sum_replicate_zero n : sum (replicate n 0%Z) = 0%Z.
Proof. induction n as [|n IH]; simpl; [done|]. by rewrite IH. Qed.

Lemma sum_alter_succ (l : list Z) i :
  (i < length l)%nat → sum (alter (λ c, (c + 1)%Z) i l) = (sum l + 1)%Z.
Proof.
  revert i. induction l as [|x l IH]; intros [|i] Hi; simpl in *; try lia.
  specialize (IH i ltac:(lia)). unfold alter in IH. rewrite IH. lia.
Qed.

(** Past the range test of line 112 an integer is an index into
    [counts]. *)
Lemma arrayIndex_in_range index len :
  ltZero index = false → geLength index len = false →
  isInteger index = true →
  ∃ i, arrayIndex index = Some i ∧ (i < len)%nat.
Proof.
  destruct index as [[[n d] Hcanon]| |]; simpl; try done.
  intros Hlt%bool_decide_eq_false Hge%bool_decide_eq_false
         Hint%bool_decide_eq_true.
  simpl in Hint. subst d.
  unfold Qclt, Qcle in *. simpl in *.
  rewrite Qred_correct in Hge.
  unfold Qlt, Qle in *. simpl in *.
  rewrite bool_decide_eq_true_2 by (split; [done|lia]).
  eexists. split; [done|]. lia.
Qed.

(** With integer option indices every transition keeps
    [total == sum(counts)]. *)
Lemma transition_totalsMatch ws oi st st' :
  (∀ index, oi = Some index → isInteger index = true) →
  transition ws oi st st' → totalsMatch st → totalsMatch st'.
Proof.
  intros Hint.
  apply (transition_rooms_Forall (λ r, total r = sum (entries (counts r)))).
  - done.
  - by intros [].
  - intros m r r' Hc Hr. destruct Hc as [| |r q index key Hoi Hq Hlt Hge Hkey|];
      simpl; try done.
    + by rewrite sum_replicate_zero.
    + destruct (arrayIndex_in_range index _ Hlt Hge (Hint _ Hoi))
        as (i & Hi & Hlen).
      unfold increment. rewrite Hi. simpl. rewrite sum_alter_succ by done. lia.
Qed.

(** X19.  [total == sum(counts)] holds in every room after an execution in
    which every numeric option index is an integer: integer votes keep the
    two tallies in step. *)
Lemma integral_votes_totalsMatch es st :
  Forall (λ e, ∀ index, eventIndex e = Some index → isInteger index = true) es →
  run es initial = Some st → totalsMatch st.
Proof.
  intros Hes Hrun.
  assert (∀ s, totalsMatch s → run es s = Some st → totalsMatch st) as Hgen.
  { clear Hrun. induction Hes as [|e es He _ IH]; simpl; intros s Hs.
    - by intros [= <-].
    - destruct (step e s) as [s'|] eqn:E; simpl; [|done].
      apply IH. eapply transition_totalsMatch; [done| |done].
      by apply step_transition. }
  apply (Hgen initial); [|done]. apply map_Forall_empty.
Qed.
End Tallies.

(** ** Votes that are turned down, and votes that throw *)

Section Votes.
Context `{Runtime}.

(** X20.  The checks of a vote run in a fixed order, and the first that
    fails decides the answer: no active question, then a question id that
    does not match, then an option index that is no number, then one outside
    the range of [counts], then a falsy name.  Each failure is reported to
    the sender alone and leaves the state as it was. *)
Lemma vote_rejections isOpen ws msg st :
  let m := metaOf st ws in
  let r := roomOf (rooms st) (identity (roomId m)) in
  let payload := get msg "payload" in
  let reply e := Completed st (safeSend isOpen ws (errorMsg e)) in
  joinedRoomsExist st →
  truthy (roomId m) = true →
  get msg "type" = Str "VOTE" → truthy payload = true →
  (question r = None →
     onMessage isOpen ws (Some msg) st = reply Err.NoActiveQuestion)
  ∧ ∀ q, question r = Some q →
      (strictEquals (get payload "questionId") (qid q) = false →
         onMessage isOpen ws (Some msg) st = reply Err.QuestionMismatch)
      ∧ (strictEquals (get payload "questionId") (qid q) = true →
           (numericIndex payload = None →
              onMessage isOpen ws (Some msg) st = reply Err.InvalidOptionType)
           ∧ ∀ index, numericIndex payload = Some index →
               (ltZero index || geLength index (length (entries (counts r)))
                = true →
                  onMessage isOpen ws (Some msg) st
                  = reply Err.InvalidOptionRange)
               ∧ (ltZero index || geLength index (length (entries (counts r)))
                  = false →
                  truthy (get payload "name") = false →
                  onMessage isOpen ws (Some msg) st = reply Err.NameRequired)).
Proof.
  intros m r payload reply Hwf Hm Ht Hp.
  rewrite onMessage_command; [|by rewrite Ht|done|by rewrite Ht|done].
  rewrite Ht. simpl. unfold onVote, numericIndex. fold m r payload.
  destruct (joined_room_unchanged st ws Hwf Hm) as [Hsame _].
  fold m r in Hsame. rewrite Hsame.
  split; [by intros ->|]. intros q ->. split; [by intros ->|]. intros ->.
  simpl. destruct (get payload "optionIndex") as [| | |index| | |];
    (split; [try done|intros i [=]; subst]).
  split; [by intros ->|]. by intros -> ->.
Qed.

(** A handler that throws has reached line 115: the message is a vote that
    passed every check before it, and the exception is the one the ballot
    key raises. *)
Lemma throw_needs_ballotKey isOpen ws raw st e :
  onMessage isOpen ws raw st = Threw e →
  ∃ msg q index,
    let m := metaOf st ws in
    let r := roomOf (rooms st) (identity (roomId m)) in
    let payload := get msg "payload" in
    raw = Some msg
    ∧ get msg "type" = Str "VOTE" ∧ truthy payload = true
    ∧ truthy (roomId m) = true
    ∧ question r = Some q
    ∧ strictEquals (get payload "questionId") (qid q) = true
    ∧ get payload "optionIndex" = Num index
    ∧ ltZero index || geLength index (length (entries (counts r))) = false
    ∧ truthy (get payload "name") = true
    ∧ ballotKey (roomId m) (qid q) (get payload "name") = inl e.
Proof.
  unfold onMessage. destruct raw as [msg|]; [|done].
  rewrite !get_orEmpty.
  destruct (truthy (get msg "type")) eqn:Ht; [|done].
  destruct (truthy (get msg "payload")) eqn:Hp; [|done]. simpl.
  destruct (strictEquals (get msg "type") (Str "JOIN")).
  { unfold onJoin. repeat case_match; done. }
  destruct (truthy (roomId (metaOf st ws))) eqn:Hm; [|done]. simpl.
  rewrite getRoom_roomOf.
  destruct (strictEquals (get msg "type") (Str "HOST_SET_QUESTION")).
  { unfold onSetQuestion. repeat case_match; done. }
  destruct (strictEquals (get msg "type") (Str "VOTE")) eqn:Hv; [|done].
  apply strictEquals_Str in Hv. unfold onVote.
  destruct (question _) as [q|] eqn:Hq; [|done].
  destruct (strictEquals (get (get msg "payload") "questionId") (qid q))
    eqn:Hqid; [|done]. simpl.
  destruct (get (get msg "payload") "optionIndex") as [| | |index| | |]
    eqn:Hi; try done.
  destruct (ltZero index || geLength index _) eqn:Hrange; [done|].
  destruct (truthy (get (get msg "payload") "name")) eqn:Hn; [|done]. simpl.
  destruct (ballotKey _ _ _) as [e'|key] eqn:Hkey.
  - intros E. assert (e' = e) as -> by congruence.
    exists msg, q, index. by split_and!.
  - repeat case_match; done.
Qed.

(** X21.  The message handler throws in one place only, the ballot key of
    line 115: it throws exactly when the message is a vote of a joined
    connection that passes the checks of lines 109-113 and whose key cannot
    be built, which is when [name] is no string or the room id or question
    id is an object that cannot be converted to a string. *)
Lemma onMessage_throws isOpen ws raw st e :
  onMessage isOpen ws raw st = Threw e ↔
  ∃ msg q index,
    let m := metaOf st ws in
    let r := roomOf (rooms st) (identity (roomId m)) in
    let payload := get msg "payload" in
    raw = Some msg
    ∧ get msg "type" = Str "VOTE" ∧ truthy payload = true
    ∧ truthy (roomId m) = true
    ∧ question r = Some q
    ∧ strictEquals (get payload "questionId") (qid q) = true
    ∧ get payload "optionIndex" = Num index
    ∧ ltZero index || geLength index (length (entries (counts r))) = false
    ∧ truthy (get payload "name") = true
    ∧ ballotKey (roomId m) (qid q) (get payload "name") = inl e.
Proof.
  split; [apply throw_needs_ballotKey|].
  intros (msg & q & index & -> & Ht & Hp & Hm & Hq & Hqid & Hi & Hrange
          & Hn & Hkey).
  rewrite onMessage_command; [|by rewrite Ht|done|by rewrite Ht|done].
  rewrite Ht. simpl. unfold onVote.
  by rewrite Hq, Hqid, Hi, Hrange, Hn, Hkey.
Qed.

(** [name.trim] is not a function unless [name] is a string. *)
Lemma ballotKey_not_string rid id name :
  (∀ s, name ≠ Str s) → ∃ e, ballotKey rid id name = inl e.
Proof.
  intros Hname. unfold ballotKey.
  destruct name as [| | | |s| |];
    try (by destruct (ToString rid), (ToString id); eauto).
  by destruct (Hname s).
Qed.
End Votes.

(** ** One message, case by case *)

Section Cases.
Context `{Runtime}.

(** A message either is a successful [JOIN], which leaves [joinState], or
    leaves the [meta]s alone and changes at most the room of its sender. *)
Lemma onMessage_cases isOpen ws raw st st' sent :
  onMessage isOpen ws raw st = Completed st' sent →
  (∃ msg, raw = Some msg ∧ isValidJoin raw = true
          ∧ st' = joinState ws (get msg "payload") st)
  ∨ (isValidJoin raw = false
     ∧ (st' = st
        ∨ ∃ r', truthy (roomId (metaOf st ws)) = true
                ∧ roomChange ws (metaOf st ws) (indexOf raw)
                    (roomOf (rooms st) (identity (roomId (metaOf st ws)))) r'
                ∧ st' = State (<[identity (roomId (metaOf st ws)) := r']>
                                 (rooms st)) (metas st))).
Proof.
  destruct (isValidJoin raw) eqn:Hv.
  - destruct raw as [msg|]; [|done]. intros Hrun. left. exists msg.
    destruct (onMessage_validJoin isOpen ws msg st Hv) as (_ & sent' & Hj).
    rewrite Hj in Hrun. by injection Hrun as <- _.
  - intros Hrun. right. split; [done|]. revert Hrun.
    unfold onMessage. destruct raw as [msg|]; [|intros [= <- _]; by left].
    simpl in Hv. rewrite !get_orEmpty.
    destruct (truthy (get msg "type")); [|intros [= <- _]; by left].
    destruct (truthy (get msg "payload")); [|intros [= <- _]; by left].
    simpl in *.
    destruct (strictEquals (get msg "type") (Str "JOIN")); simpl in *.
    { destruct (onJoin_invalid isOpen ws (get msg "payload") st Hv) as [e ->].
      intros [= <- _]. by left. }
    destruct (truthy (roomId (metaOf st ws))) eqn:Hm; simpl;
      [|intros [= <- _]; by left].
    rewrite getRoom_roomOf.
    destruct (strictEquals (get msg "type") (Str "HOST_SET_QUESTION")).
    { intros Hs.
      destruct (onSetQuestion_change _ _ _ _ _ _ Hs (indexOf (Some msg)))
        as (r' & Hc & ->).
      right. eauto. }
    destruct (strictEquals (get msg "type") (Str "VOTE")).
    { intros (r' & Hc & ->)%onVote_change. right. eauto. }
    intros [= <- _]. right. eexists. split_and!; [done|constructor|done].
Qed.
End Cases.

(** ** The room registry *)

Section Registry.
Context `{Runtime}.

(** X1.  [getRoom] creates a room at most once: the room it returns is the
    one the map holds afterwards under the key, a second call returns the
    same map and room, an existing room is returned as it is, a missing one
    is created empty, and no other key of the map is touched. *)
Theorem getRoom_creates_once rid rs :
  let '(rs1, r) := getRoom rid rs in
  rs1 !! identity rid = Some r
  ∧ getRoom rid rs1 = (rs1, r)
  ∧ (∀ k, k ≠ identity rid → rs1 !! k = rs !! k)
  ∧ (∀ r0, rs !! identity rid = Some r0 → rs1 = rs ∧ r = r0)
  ∧ (rs !! identity rid = None → r = Room None (CountsArray [] ∅) 0 ∅ []).
Proof.
  unfold getRoom. destruct (rs !! identity rid) as [r0|] eqn:E.
  - split_and!; try done.
    + by rewrite E.
    + by intros ? [= <-].
  - split_and!; try done.
    + by rewrite lookup_insert_eq.
    + by rewrite lookup_insert_eq.
    + intros k Hk. by rewrite lookup_insert_ne.
Qed.

Lemma transition_dom ws oi st st' :
  transition ws oi st st' → dom (rooms st) ⊆ dom (rooms st').
Proof.
  intros [| |rid nm rl Hrid|r' Hm Hc]; simpl; try done;
    rewrite dom_insert_L; set_solver.
Qed.

(** X2.  No event removes a room: every key of the room map is still there
    after any execution. *)
Theorem rooms_never_removed es st st' :
  run es st = Some st' → dom (rooms st) ⊆ dom (rooms st').
Proof.
  revert st. induction es as [|e es IH]; simpl; intros st.
  - by intros [= <-].
  - destruct (step e st) as [s|] eqn:E; simpl; [|done].
    intros Hrun%IH. apply step_transition, transition_dom in E. set_solver.
Qed.

(** X3.  An event touches one session and one room at most: the [meta] of
    every other connection, and every room but the one its own connection is
    bound to afterwards, are as before. *)
Theorem event_is_local e st st' :
  step e st = Some st' →
  (∀ c, c ≠ connOf e → metas st' !! c = metas st !! c)
  ∧ (∀ k, k ≠ identity (roomId (metaOf st' (connOf e))) →
       rooms st' !! k = rooms st !! k).
Proof.
  intros Ht%step_transition.
  destruct Ht as [| |rid nm rl Hrid|r' Hm Hc]; simpl; try done.
  - split; [|done]. intros c Hc. by rewrite lookup_insert_ne.
  - split.
    + intros c Hc. by rewrite lookup_insert_ne.
    + intros k. rewrite metaOf_insert, decide_True by done. simpl.
      intros Hk. by rewrite lookup_insert_ne.
  - split; [done|]. intros k Hk. rewrite lookup_insert_ne; [done|].
    intros <-. by apply Hk.
Qed.
End Registry.

(** ** What is sent, and to whom *)

Section Sends.
Context `{Runtime}.

Lemma safeSend_gate isOpen ws m :
  safeSend isOpen ws m
  = filter (λ p, isOpen p.1 = true) (safeSend (λ _, true) ws m).
Proof.
  unfold safeSend. rewrite filter_cons, filter_nil. simpl.
  destruct (isOpen ws); by case_decide.
Qed.

Lemma fanout_gate isOpen m (cs : list conn) :
  flat_map (λ client, safeSend isOpen client m) cs
  = filter (λ p, isOpen p.1 = true)
      (flat_map (λ client, safeSend (λ _, true) client m) cs).
Proof.
  induction cs as [|c cs IH]; [done|]. cbn [flat_map].
  by rewrite filter_app, <-IH, <-safeSend_gate.
Qed.

Lemma broadcast_gate isOpen rid m rs :
  broadcast isOpen rid m rs
  = ((broadcast (λ _, true) rid m rs).1,
     filter (λ p, isOpen p.1 = true) (broadcast (λ _, true) rid m rs).2).
Proof.
  unfold broadcast. destruct (getRoom rid rs) as [rs' r]. simpl.
  by rewrite fanout_gate.
Qed.

(** X4.  [readyState] decides only which messages leave: whatever sockets
    are open, a message leaves the same state (or throws alike), and what is
    sent is what would be sent with every socket open, less the messages for
    sockets that are not open. *)
Theorem readyState_only_gates_sends isOpen ws raw st :
  onMessage isOpen ws raw st = gate isOpen (onMessage (λ _, true) ws raw st).
Proof.
  assert (Herr : ∀ s e,
    Completed s (safeSend isOpen ws (errorMsg e))
    = gate isOpen (Completed s (safeSend (λ _, true) ws (errorMsg e)))).
  { intros. simpl. by rewrite <-safeSend_gate. }
  unfold onMessage. destruct raw as [msg|]; [|apply Herr].
  rewrite !get_orEmpty.
  destruct (negb (truthy (get msg "type")) || negb (truthy (get msg "payload")));
    [apply Herr|].
  destruct (strictEquals (get msg "type") (Str "JOIN")).
  { unfold onJoin.
    destruct (negb _ || negb _ || negb _); [apply Herr|].
    destruct (negb (_ || _)); [apply Herr|].
    destruct (getRoom _ _) as [rs r]. destruct (roomState _ _) as [rs' m].
    simpl. by rewrite <-safeSend_gate. }
  destruct (negb (truthy (roomId (metaOf st ws)))); [apply Herr|].
  destruct (getRoom _ _) as [rs r].
  destruct (strictEquals (get msg "type") (Str "HOST_SET_QUESTION")).
  { unfold onSetQuestion.
    destruct (negb (strictEquals _ _)); [apply Herr|].
    destruct (negb _ || negb _ || negb _ || negb _); [apply Herr|].
    destruct (_ || _); [apply Herr|].
    destruct (roomState _ _) as [rs' m]. rewrite broadcast_gate.
    by destruct (broadcast (λ _, true) _ _ _). }
  destruct (strictEquals (get msg "type") (Str "VOTE")); [|apply Herr].
  unfold onVote. destruct (question r) as [q|]; [|apply Herr].
  destruct (negb (strictEquals _ _)); [apply Herr|].
  destruct (get (get msg "payload") "optionIndex"); try apply Herr.
  destruct (_ || _); [apply Herr|].
  destruct (negb _); [apply Herr|].
  destruct (ballotKey _ _ _) as [e|key]; [done|].
  case_bool_decide; [apply Herr|].
  destruct (roomState _ _) as [rs' m]. rewrite broadcast_gate.
  by destruct (broadcast (λ _, true) _ _ _).
Qed.

(** What a message sends: one error or one snapshot to its sender, or one
    snapshot to the clients of the sender's room; the snapshot is that of
    the room in the state the message leaves. *)
Lemma onMessage_sent isOpen ws raw st st' sent :
  onMessage isOpen ws raw st = Completed st' sent →
  let rid := roomId (metaOf st' ws) in
  (∃ e, sent = safeSend isOpen ws (ERROR e))
  ∨ sent = safeSend isOpen ws (snapshotOf st' rid)
  ∨ sent = flat_map (λ client, safeSend isOpen client (snapshotOf st' rid))
             (clients (roomOf (rooms st') (identity rid))).
Proof.
  assert (Herr : ∀ s e,
    Completed s (safeSend isOpen ws (errorMsg e)) = Completed st' sent →
    ∃ e, sent = safeSend isOpen ws (ERROR e)).
  { intros s e [= _ <-]. eauto. }
  unfold onMessage. destruct raw as [msg|]; [|intros; left; by eapply Herr].
  rewrite !get_orEmpty.
  destruct (negb (truthy (get msg "type")) || negb (truthy (get msg "payload")));
    [intros; left; by eapply Herr|].
  destruct (strictEquals (get msg "type") (Str "JOIN")).
  { destruct (validJoin (get msg "payload")) eqn:Hv.
    - rewrite (onJoin_valid _ _ _ _ Hv). intros [= <- <-]. right. left.
      unfold snapshotOf. rewrite metaOf_insert, decide_True by done. simpl.
      by rewrite roomOf_insert, decide_True.
    - destruct (onJoin_invalid isOpen ws (get msg "payload") st Hv) as [e ->].
      intros; left; by eapply Herr. }
  destruct (negb (truthy (roomId (metaOf st ws)))); [intros; left; by eapply Herr|].
  rewrite getRoom_roomOf.
  set (rid := roomId (metaOf st ws)). set (k := identity rid).
  set (r := roomOf (rooms st) k).
  destruct (strictEquals (get msg "type") (Str "HOST_SET_QUESTION")).
  { unfold onSetQuestion.
    destruct (negb (strictEquals _ _)); [intros; left; by eapply Herr|].
    destruct (negb _ || negb _ || negb _ || negb _);
      [intros; left; by eapply Herr|].
    destruct (_ || _); [intros; left; by eapply Herr|].
    rewrite insert_insert_eq, roomState_insert, broadcast_insert.
    intros [= <- <-]. right. right. unfold snapshotOf. simpl. fold rid k.
    by rewrite roomOf_insert, decide_True. }
  destruct (strictEquals (get msg "type") (Str "VOTE"));
    [|intros; left; by eapply Herr].
  unfold onVote. destruct (question r) as [q|] eqn:Hq;
    [|intros; left; by eapply Herr].
  destruct (negb (strictEquals _ _)); [intros; left; by eapply Herr|].
  destruct (get (get msg "payload") "optionIndex");
    try (intros; left; by eapply Herr).
  destruct (_ || _); [intros; left; by eapply Herr|].
  destruct (negb _); [intros; left; by eapply Herr|].
  destruct (ballotKey _ _ _) as [e|key]; [done|].
  case_bool_decide; [intros; left; by eapply Herr|].
  rewrite insert_insert_eq, roomState_insert, broadcast_insert.
  intros [= <- <-]. right. right. unfold snapshotOf. simpl. fold rid k.
  by rewrite roomOf_insert, decide_True.
Qed.

(** X5.  Every message a handler sends goes to an open socket, and either
    to the sender or to a client of the room the sender is bound to. *)
Theorem sends_stay_in_room isOpen ws raw st st' sent c m :
  onMessage isOpen ws raw st = Completed st' sent →
  (c, m) ∈ sent →
  isOpen c = true
  ∧ (c = ws ∨ member st' (identity (roomId (metaOf st' ws))) c).
Proof.
  intros Hrun Hin.
  assert (Hone : ∀ c0 m0, (c, m) ∈ safeSend isOpen c0 m0 →
                          isOpen c = true ∧ c = c0).
  { intros c0 m0. unfold safeSend. destruct (isOpen c0) eqn:E.
    - by intros [= -> ->]%list_elem_of_singleton.
    - by intros ?%elem_of_nil. }
  destruct (onMessage_sent _ _ _ _ _ _ Hrun) as [[e ->] | [-> | ->]].
  - destruct (Hone _ _ Hin) as [? ->]. eauto.
  - destruct (Hone _ _ Hin) as [? ->]. eauto.
  - apply list_elem_of_In, in_flat_map in Hin as (c0 & Hc0 & Hin).
    apply list_elem_of_In in Hc0, Hin.
    destruct (Hone _ _ Hin) as [? ->]. split; [done|]. right.
    by apply member_roomOf.
Qed.

(** X6.  A [STATE] message shows the state the handler leaves: it carries
    the room id of its sender and the question, counts and total that the
    sender's room has once the message is handled. *)
Theorem snapshot_is_current isOpen ws raw st st' sent c rid q cs t :
  onMessage isOpen ws raw st = Completed st' sent →
  (c, STATE rid q cs t) ∈ sent →
  let r := roomOf (rooms st') (identity (roomId (metaOf st' ws))) in
  rid = roomId (metaOf st' ws)
  ∧ q = question r ∧ cs = entries (counts r) ∧ t = total r.
Proof.
  intros Hrun Hin.
  assert (Hone : ∀ c0 m0, (c, STATE rid q cs t) ∈ safeSend isOpen c0 m0 →
                          m0 = STATE rid q cs t).
  { intros c0 m0. unfold safeSend. destruct (isOpen c0).
    - by intros [= -> ->]%list_elem_of_singleton.
    - by intros ?%elem_of_nil. }
  assert (Hsnap : snapshotOf st' (roomId (metaOf st' ws)) = STATE rid q cs t →
    let r := roomOf (rooms st') (identity (roomId (metaOf st' ws))) in
    rid = roomId (metaOf st' ws)
    ∧ q = question r ∧ cs = entries (counts r) ∧ t = total r).
  { unfold snapshotOf. by intros [= <- <- <- <-]. }
  destruct (onMessage_sent _ _ _ _ _ _ Hrun) as [[e ->] | [-> | ->]].
  - by apply Hone in Hin.
  - by apply Hsnap, (Hone ws).
  - apply list_elem_of_In, in_flat_map in Hin as (c0 & _ & Hin).
    apply list_elem_of_In in Hin. by apply Hsnap, (Hone c0).
Qed.
End Sends.

(** ** Sessions and membership over an execution *)

Section Sessions.
Context `{Runtime}.

Lemma validJoin_boundMeta payload :
  validJoin payload = true →
  boundMeta (Meta (get payload "roomId") (get payload "name")
                  (get payload "role")).
Proof.
  unfold validJoin, boundMeta. intros Hv.
  repeat (apply andb_true_iff in Hv as [Hv ?]). simpl. split_and!; try done.
  match goal with E : _ || _ = true |- _ =>
    apply orb_true_iff in E as [E%strictEquals_Str|E%strictEquals_Str] end;
    eauto.
Qed.

Lemma isValidJoin_validJoin msg :
  isValidJoin (Some msg) = true → validJoin (get msg "payload") = true.
Proof. simpl. intros Hv. by repeat (apply andb_true_iff in Hv as [Hv ?]). Qed.

Lemma step_sessionsWellFormed e st st' :
  step e st = Some st' → sessionsWellFormed st → sessionsWellFormed st'.
Proof.
  unfold sessionsWellFormed.
  destruct e as [ws|isOpen ws raw|ws]; simpl.
  - intros [= <-] Hwf. simpl. apply map_Forall_insert_2; [by left|done].
  - destruct (onMessage isOpen ws raw st) as [s sent|] eqn:E; [|done].
    intros [= <-] Hwf.
    destruct (onMessage_cases _ _ _ _ _ _ E)
      as [(msg & -> & Hv & ->) | (_ & [-> | (r' & _ & _ & ->)])]; try done.
    simpl. apply map_Forall_insert_2; [|done]. right.
    by apply validJoin_boundMeta, isValidJoin_validJoin.
  - intros [= <-]. unfold onClose.
    destruct (negb _); [done|]. by destruct (getRoom _ _).
Qed.

(** X7.  In every state the server reaches, the [meta] of a connection is
    either the empty one it got when it connected or one bound by a [JOIN]:
    room id and name truthy, role [player] or [host]. *)
Theorem sessions_stay_well_formed es st ws :
  run es initial = Some st →
  metaOf st ws = newMeta ∨ boundMeta (metaOf st ws).
Proof.
  intros Hrun.
  assert (sessionsWellFormed st) as Hwf.
  { apply (run_invariant sessionsWellFormed es initial);
      [apply step_sessionsWellFormed|done|apply map_Forall_empty]. }
  unfold metaOf. destruct (metas st !! ws) as [m|] eqn:E; simpl; [|by left].
  by apply (Hwf ws).
Qed.

Lemma step_member e st st' k ws :
  step e st = Some st' → member st' k ws →
  member st k ws ∨ joinsRoom ws k e.
Proof.
  rewrite !member_roomOf.
  destruct e as [c|isOpen c raw|c]; simpl.
  - intros [= <-]. by left.
  - destruct (onMessage isOpen c raw st) as [s sent|] eqn:E; [|done].
    intros [= <-].
    destruct (onMessage_cases _ _ _ _ _ _ E)
      as [(msg & -> & Hv & ->) | (_ & [-> | (r' & _ & Hc & ->)])].
    + unfold joinState. simpl. rewrite roomOf_insert.
      destruct (decide (identity (get (get msg "payload") "roomId") = k))
        as [Hk|]; [|by left].
      simpl. rewrite elem_of_setAdd. intros [-> | Hin].
      * right. by exists isOpen, msg.
      * left. by rewrite <-Hk.
    + by left.
    + simpl. rewrite roomOf_insert.
      destruct (decide (identity (roomId (metaOf st c)) = k)) as [<-|];
        [|by left].
      destruct Hc; simpl; try by left.
      rewrite elem_of_setDelete. intros [_ ?]. by left.
  - intros [= <-]. destruct (truthy (roomId (metaOf st c))) eqn:Hm.
    + rewrite (onClose_joined _ _ Hm). simpl. rewrite roomOf_insert.
      destruct (decide (identity (roomId (metaOf st c)) = k)) as [<-|];
        [|by left].
      simpl. rewrite elem_of_setDelete. intros [_ ?]. by left.
    + unfold onClose. rewrite Hm. by left.
Qed.

(** X8.  The clients of a room are connections that joined it: whoever is
    among the clients of a room in a state the server reaches has sent, in
    the execution that led there, a successful [JOIN] naming that room. *)
Theorem members_have_joined es st k ws :
  run es initial = Some st → member st k ws → Exists (joinsRoom ws k) es.
Proof.
  assert (Hgen : ∀ s, run es s = Some st → member st k ws →
                      member s k ws ∨ Exists (joinsRoom ws k) es).
  { induction es as [|e es IH]; simpl; intros s.
    - intros [= <-]. by left.
    - destruct (step e s) as [s'|] eqn:E; simpl; [|done].
      intros Hrun Hmem. destruct (IH _ Hrun Hmem) as [Hs'|Hex].
      + destruct (step_member _ _ _ _ _ E Hs') as [?|?];
          [by left|right; by apply Exists_cons_hd].
      + right. by apply Exists_cons_tl. }
  intros Hrun Hmem. destruct (Hgen _ Hrun Hmem) as [(r & Hr & _)|]; [|done].
  simpl in Hr. by rewrite lookup_empty in Hr.
Qed.

Lemma NoDup_setAdd ws (cs : list conn) : NoDup cs → NoDup (setAdd ws cs).
Proof.
  intros Hnd. unfold setAdd. case_bool_decide as E; [done|].
  apply NoDup_app. split_and!; [done| |apply NoDup_singleton].
  intros x Hx ->%list_elem_of_singleton. done.
Qed.

Lemma NoDup_setDelete ws (cs : list conn) : NoDup cs → NoDup (setDelete ws cs).
Proof. apply NoDup_filter. Qed.

Lemma transition_clientsNoDup ws oi st st' :
  transition ws oi st st' → clientsNoDup st → clientsNoDup st'.
Proof.
  apply (transition_rooms_Forall (λ r, NoDup (clients r))).
  - apply NoDup_nil_2.
  - intros r. apply NoDup_setAdd.
  - intros m r r' Hc Hr. destruct Hc; simpl; try done.
    by apply NoDup_setDelete.
Qed.

Lemma reachable_clientsNoDup es st :
  run es initial = Some st → clientsNoDup st.
Proof.
  intros Hrun. apply (run_invariant clientsNoDup es initial); [|done|].
  - intros e s s' Hs%step_transition. by eapply transition_clientsNoDup.
  - apply map_Forall_empty.
Qed.

Lemma fanout_recipients isOpen m (cs : list conn) :
  (flat_map (λ client, safeSend isOpen client m) cs).*1
  = filter (λ c, isOpen c = true) cs.
Proof.
  induction cs as [|c cs IH]; [done|]. cbn [flat_map].
  rewrite fmap_app, IH, filter_cons. unfold safeSend.
  destruct (isOpen c); by case_decide.
Qed.

(** X9.  A connection gets at most one message for each message the server
    handles: a connection is in the clients of a room once, however often it
    joined, so a broadcast reaches it once. *)
Theorem one_send_per_connection es st isOpen ws raw st' sent :
  run es initial = Some st →
  onMessage isOpen ws raw st = Completed st' sent →
  NoDup sent.*1.
Proof.
  intros Hrun Hmsg.
  assert (run (es ++ [Message isOpen ws raw]) initial = Some st') as Hrun'.
  { clear -Hrun Hmsg. revert Hrun. generalize initial.
    induction es as [|e es IH]; simpl; intros s.
    - intros [= ->]. by rewrite Hmsg.
    - destruct (step e s) as [s'|]; simpl; [apply IH|done]. }
  apply reachable_clientsNoDup in Hrun'.
  assert (Hone : ∀ m, NoDup (safeSend isOpen ws m).*1).
  { intros m. unfold safeSend. destruct (isOpen ws); simpl;
      [apply NoDup_singleton|apply NoDup_nil_2]. }
  destruct (onMessage_sent _ _ _ _ _ _ Hmsg) as [[e ->] | [-> | ->]];
    try apply Hone.
  rewrite fanout_recipients. apply NoDup_filter.
  unfold roomOf. destruct (rooms st' !! _) as [r|] eqn:E; simpl;
    [by apply (Hrun' _ _ E)|apply NoDup_nil_2].
Qed.
End Sessions.

(** ** Leaving, and the life of a ballot *)

Section Ballots.
Context `{Runtime}.

Lemma setDelete_idemp ws (cs : list conn) :
  setDelete ws (setDelete ws cs) = setDelete ws cs.
Proof.
  unfold setDelete. rewrite list_filter_filter. apply list_filter_iff.
  tauto.
Qed.

(** X10.  Closing is idempotent and touches membership only: a second close
    changes nothing, the [meta]s and every room's question, counts, total
    and ballots stay, the connection is gone from the room it was bound to,
    and no other connection leaves any room.  A connection that never joined
    closes without any change. *)
Theorem close_only_leaves ws st :
  let m := metaOf st ws in
  let st' := onClose ws st in
  onClose ws st' = st'
  ∧ metas st' = metas st
  ∧ (∀ k, let r := roomOf (rooms st) k in
          let r' := roomOf (rooms st') k in
          question r' = question r ∧ counts r' = counts r
          ∧ total r' = total r ∧ votedBy r' = votedBy r)
  ∧ (∀ k c, c ≠ ws → (member st' k c ↔ member st k c))
  ∧ (∀ k, k ≠ identity (roomId m) → (member st' k ws ↔ member st k ws))
  ∧ (truthy (roomId m) = true → ¬ member st' (identity (roomId m)) ws)
  ∧ (truthy (roomId m) = false → st' = st).
Proof.
  intros m st'. unfold st'.
  destruct (truthy (roomId m)) eqn:Hm; last first.
  { assert (onClose ws st = st) as -> by (unfold onClose; fold m; by rewrite Hm).
    split_and!; try done. unfold onClose. fold m. by rewrite Hm. }
  rewrite (onClose_joined ws st Hm). fold m.
  set (k0 := identity (roomId m)). set (r0 := roomOf (rooms st) k0).
  split_and!; try done.
  - rewrite onClose_joined by done.
    change (metaOf _ ws) with m. fold k0. simpl.
    rewrite roomOf_insert, decide_True, insert_insert_eq by done. simpl.
    by rewrite setDelete_idemp.
  - intros k. simpl. rewrite roomOf_insert.
    destruct (decide (k0 = k)) as [<-|]; by simpl.
  - intros k c Hc. rewrite !member_roomOf. simpl. rewrite roomOf_insert.
    destruct (decide (k0 = k)) as [<-|]; [|done]. simpl.
    rewrite elem_of_setDelete. fold r0. tauto.
  - intros k Hk. rewrite !member_roomOf. simpl.
    by rewrite roomOf_insert, decide_False.
  - intros _. rewrite member_roomOf. simpl.
    rewrite roomOf_insert, decide_True by done. simpl.
    rewrite elem_of_setDelete. by intros [? _].
Qed.

(** X11.  The ballots of a room are kept until its host puts a question: an
    event either leaves the question of a room, keeps all its ballot keys and
    does not lower its total or change the number of its counts, or it is a
    message of a host bound to that room and leaves a question with no
    ballots, total [0] and one zero count per option. *)
Theorem ballots_kept_until_new_question e st st' k :
  step e st = Some st' →
  let r := roomOf (rooms st) k in
  let r' := roomOf (rooms st') k in
  (question r' = question r ∧ votedBy r ⊆ votedBy r'
   ∧ (total r ≤ total r')%Z
   ∧ length (entries (counts r')) = length (entries (counts r)))
  ∨ (role (metaOf st (connOf e)) = Str "host"
     ∧ k = identity (roomId (metaOf st (connOf e)))
     ∧ votedBy r' = ∅ ∧ total r' = 0%Z
     ∧ ∃ q, question r' = Some q
            ∧ entries (counts r') = replicate (length (qoptions q)) 0%Z).
Proof.
  intros Ht%step_transition.
  destruct Ht as [| |rid nm rl Hrid|r' Hm Hc]; simpl; try (by left).
  - rewrite roomOf_insert. destruct (decide (identity rid = k)) as [<-|];
      by left.
  - rewrite roomOf_insert.
    destruct (decide (identity (roomId (metaOf st (connOf e))) = k)) as [<-|];
      [|by left].
    destruct Hc as [|r q Hrole Hid Hlen|r q index key Hoi Hq Hlt Hge Hkey|];
      simpl; try (by left).
    + right. split_and!; try done. by exists q.
    + left. split_and!; [done|set_solver|lia|apply increment_length].
Qed.

Lemma Qred_integer z : Qred (inject_Z z) = inject_Z z.
Proof.
  unfold Qred, inject_Z.
  generalize (Z.ggcd_gcd z 1), (Z.ggcd_correct_divisors z 1).
  destruct (Z.ggcd z 1) as [g [a b]]. simpl. rewrite Z.gcd_1_r.
  intros -> [Ha Hb]. f_equal; [lia|]. replace b with 1%Z by lia. done.
Qed.

Lemma integer_spec z len :
  ltZero (integer z) = bool_decide (z < 0)%Z
  ∧ geLength (integer z) len = bool_decide (Z.of_nat len ≤ z)%Z
  ∧ isInteger (integer z) = true
  ∧ ((0 ≤ z)%Z → arrayIndex (integer z) = Some (Z.to_nat z)).
Proof.
  assert (Qden (Qred (inject_Z z)) = 1%positive) as Hden
    by by rewrite Qred_integer.
  assert (Qnum (Qred (inject_Z z)) = z) as Hnum by by rewrite Qred_integer.
  unfold integer, ltZero, geLength, isInteger, arrayIndex. split_and!.
  - apply bool_decide_ext. unfold Qclt. simpl. rewrite Qred_lt.
    unfold Qlt. simpl. lia.
  - apply bool_decide_ext. unfold Qcle. simpl. rewrite Qred_le.
    unfold Qle. simpl. lia.
  - by apply bool_decide_eq_true.
  - intros Hz. simpl. rewrite bool_decide_eq_true_2; [by rewrite Hnum|].
    split; [done|]. by rewrite Hnum.
Qed.

(** X12.  For an integer option index the range test is exact.  A vote that
    passes the other checks with an integer index [z] is rejected as out of
    range when [z < 0] or [z >= counts.length], with the state unchanged;
    otherwise, if its ballot key is new, it raises the entry of [counts] at
    [z] by one and no other, raises [total] by one and records the key. *)
Theorem integer_vote_counts_once isOpen ws msg st q z :
  let m := metaOf st ws in
  let k := identity (roomId m) in
  let r := roomOf (rooms st) k in
  let payload := get msg "payload" in
  joinedRoomsExist st →
  truthy (roomId m) = true →
  get msg "type" = Str "VOTE" →
  question r = Some q →
  strictEquals (get payload "questionId") (qid q) = true →
  get payload "optionIndex" = Num (integer z) →
  ((z < 0 ∨ Z.of_nat (length (entries (counts r))) ≤ z)%Z →
     onMessage isOpen ws (Some msg) st
     = Completed st (safeSend isOpen ws (errorMsg Err.InvalidOptionRange)))
  ∧ ∀ key,
      (0 ≤ z < Z.of_nat (length (entries (counts r))))%Z →
      truthy (get payload "name") = true →
      ballotKey (roomId m) (qid q) (get payload "name") = inr key →
      key ∉ votedBy r →
      ∃ st' sent c,
        onMessage isOpen ws (Some msg) st = Completed st' sent
        ∧ entries (counts r) !! Z.to_nat z = Some c
        ∧ let r' := roomOf (rooms st') k in
          entries (counts r') = <[Z.to_nat z := (c + 1)%Z]> (entries (counts r))
          ∧ nanKeys (counts r') = nanKeys (counts r)
          ∧ total r' = (total r + 1)%Z
          ∧ votedBy r' = {[key]} ∪ votedBy r
          ∧ question r' = question r ∧ clients r' = clients r.
Proof.
  intros m k r payload Hwf Hm Ht Hq Hqid Hi.
  assert (truthy payload = true) as Hp.
  { by destruct payload. }
  destruct (integer_spec z (length (entries (counts r))))
    as (Hlt & Hge & Hint & Hidx).
  split.
  - intros Hout.
    rewrite onMessage_command; [|by rewrite Ht|done|by rewrite Ht|done].
    rewrite Ht. simpl. unfold onVote. fold m k r payload.
    destruct (joined_room_unchanged st ws Hwf Hm) as [Hsame _].
    fold m k r in Hsame. rewrite Hsame, Hq, Hqid, Hi, Hlt, Hge. simpl.
    assert (bool_decide (z < 0)%Z
            || bool_decide (Z.of_nat (length (entries (counts r))) ≤ z)%Z
            = true) as ->; [|done].
    apply orb_true_iff. destruct Hout; [left|right]; by apply bool_decide_eq_true.
  - intros key Hin Hn Hkey Hfresh.
    assert (ltZero (integer z) = false) as Hlt'
      by (rewrite Hlt; apply bool_decide_eq_false; lia).
    assert (geLength (integer z) (length (entries (counts r))) = false) as Hge'
      by (rewrite Hge; apply bool_decide_eq_false; lia).
    destruct (lookup_lt_is_Some_2 (entries (counts r)) (Z.to_nat z)) as [c Hc];
      [lia|].
    do 2 eexists. exists c. split_and!.
    + by apply (vote_accepted isOpen ws msg st q (integer z) key).
    + done.
    + simpl. fold m k. rewrite roomOf_insert, decide_True by done. simpl.
      fold r. unfold increment. rewrite (Hidx ltac:(lia)). simpl.
      split_and!; try done.
      apply list_eq. intros i. rewrite list_lookup_alter, list_lookup_insert.
      destruct (decide (Z.to_nat z = i)) as [<-|].
      * rewrite Hc. simpl. rewrite decide_True; [done|].
        split; [done|]. by apply lookup_lt_Some in Hc.
      * rewrite decide_False; [done|]. by intros [? _].
Qed.
End Ballots.

(** ** Rejections, check by check *)

Section Checks.
Context `{Runtime}.

(** X13.  The envelope is checked before the session: text that does not
    parse gets the JSON error, and a parsed message without a truthy type or
    payload gets the format error, from a connection that has joined or not,
    in both cases with the state unchanged; a joined connection gets the
    unsupported-type error for a type that is none of the three commands. *)
Theorem dispatch_rejections isOpen ws st :
  let reply e := Completed st (safeSend isOpen ws (errorMsg e)) in
  onMessage isOpen ws None st = reply Err.MalformedJson
  ∧ (∀ msg, truthy (get msg "type") = false ∨ truthy (get msg "payload") = false →
       onMessage isOpen ws (Some msg) st = reply Err.MalformedEnvelope)
  ∧ (∀ msg, joinedRoomsExist st →
       truthy (roomId (metaOf st ws)) = true →
       truthy (get msg "type") = true → truthy (get msg "payload") = true →
       get msg "type" ∉ [Str "JOIN"; Str "HOST_SET_QUESTION"; Str "VOTE"] →
       onMessage isOpen ws (Some msg) st = reply Err.UnsupportedType).
Proof.
  intros reply. split_and!.
  - done.
  - intros msg Hfalsy. unfold onMessage. rewrite !get_orEmpty.
    by destruct Hfalsy as [-> | ->]; rewrite ?orb_true_r.
  - intros msg Hwf Hm Ht Hp Hother.
    rewrite onMessage_command; [|done|done|set_solver|done].
    assert (strictEquals (get msg "type") (Str "HOST_SET_QUESTION") = false)
      as -> by (apply strictEquals_Str_false; set_solver).
    assert (strictEquals (get msg "type") (Str "VOTE") = false)
      as -> by (apply strictEquals_Str_false; set_solver).
    by destruct (joined_room_unchanged st ws Hwf Hm) as [-> _].
Qed.

(** X14.  A [JOIN] with a falsy room id, name or role is answered with the
    incomplete-join error, and one whose role is truthy but neither [player]
    nor [host] with the role error; the state is unchanged, so a connection
    that had joined before keeps its room, name and role. *)
Theorem join_rejections isOpen ws msg st :
  let payload := get msg "payload" in
  let reply e := Completed st (safeSend isOpen ws (errorMsg e)) in
  get msg "type" = Str "JOIN" → truthy payload = true →
  (truthy (get payload "roomId") = false ∨ truthy (get payload "name") = false
   ∨ truthy (get payload "role") = false →
     onMessage isOpen ws (Some msg) st = reply Err.JoinIncomplete)
  ∧ (truthy (get payload "roomId") = true → truthy (get payload "name") = true →
     truthy (get payload "role") = true →
     get payload "role" ≠ Str "player" → get payload "role" ≠ Str "host" →
     onMessage isOpen ws (Some msg) st = reply Err.JoinBadRole).
Proof.
  intros payload reply Ht Hp.
  assert (onMessage isOpen ws (Some msg) st = onJoin isOpen ws payload st) as ->.
  { unfold onMessage. rewrite !get_orEmpty, Ht. fold payload. by rewrite Hp. }
  unfold onJoin. fold payload. split.
  - intros [-> | [-> | ->]]; by rewrite ?orb_true_r.
  - intros -> -> -> Hp1%strictEquals_Str_false Hp2%strictEquals_Str_false.
    by rewrite Hp1, Hp2.
Qed.

(** X15.  A host's question is rejected as invalid when it is falsy, has a
    falsy id or text, or has options that are no array, and as having the
    wrong number of options when the array has fewer than two or more than
    four elements; in each case the room keeps its question, counts, total
    and ballots. *)
Theorem setQuestion_rejections isOpen ws msg st :
  let m := metaOf st ws in
  let q := get (get msg "payload") "question" in
  let reply e := Completed st (safeSend isOpen ws (errorMsg e)) in
  joinedRoomsExist st →
  truthy (roomId m) = true → role m = Str "host" →
  get msg "type" = Str "HOST_SET_QUESTION" →
  truthy (get msg "payload") = true →
  (truthy q = false ∨ truthy (get q "id") = false
   ∨ truthy (get q "text") = false ∨ isArray (get q "options") = false →
     onMessage isOpen ws (Some msg) st = reply Err.InvalidQuestion)
  ∧ (∀ ref options,
       truthy (get q "id") = true → truthy (get q "text") = true →
       get q "options" = Arr ref options →
       (length options < 2 ∨ 4 < length options)%nat →
       onMessage isOpen ws (Some msg) st = reply Err.InvalidOptionCount).
Proof.
  intros m q reply Hwf Hm Hrole Ht Hp.
  rewrite onMessage_command; [|by rewrite Ht|done|by rewrite Ht|done].
  rewrite Ht. simpl. unfold onSetQuestion. fold m q. rewrite Hrole. simpl.
  destruct (joined_room_unchanged st ws Hwf Hm) as [Hsame _].
  fold m in Hsame. rewrite Hsame. split.
  - intros [-> | [-> | [-> | ->]]]; by rewrite ?orb_true_r.
  - intros ref options Hid Htext Hopts Hlen.
    assert (truthy q = true) as -> by by eapply truthy_Obj.
    rewrite Hid, Htext, Hopts. simpl.
    assert ((length options <? 2)%nat || (4 <? length options)%nat = true)
      as ->; [|done].
    apply orb_true_iff. destruct Hlen; [left|right]; by apply Nat.ltb_lt.
Qed.
End Checks.

(** ** Ballot keys *)

Section Keys.
Context `{Runtime}.

(** X16.  Within a room and a question the ballot key tells names apart
    exactly up to trimming and lower-casing: two string names give the same
    key if and only if they are equal once trimmed and lower-cased. *)
Theorem ballotKey_by_normalized_name rid id s1 s2 k1 k2 :
  ballotKey rid id (Str s1) = inr k1 →
  ballotKey rid id (Str s2) = inr k2 →
  k1 = k2
  ↔ String_toLowerCase (String_trim s1) = String_toLowerCase (String_trim s2).
Proof.
  unfold ballotKey. destruct (ToString rid) as [|r]; [done|].
  destruct (ToString id) as [|i]; [done|]. intros [= <-] [= <-].
  split; [|by intros ->].
  by intros ?%(inj (String.app r))%(inj (String.app ":"))
             %(inj (String.app i))%(inj (String.app ":")).
Qed.

Lemma ToString_primitive v :
  isPrimitive v = true → ∃ s, ToString v = inr s.
Proof. destruct v as [| |[]| | | |]; simpl; try done; eauto. Qed.

(** X17.  With primitive ids and string names nothing throws: when the room
    id bound to the connection and the id of the active question are no
    arrays or objects, a message whose [name], if truthy, is a string is
    handled to the end. *)
Theorem primitive_ids_never_throw isOpen ws raw st :
  let m := metaOf st ws in
  let r := roomOf (rooms st) (identity (roomId m)) in
  isPrimitive (roomId m) = true →
  (∀ q, question r = Some q → isPrimitive (qid q) = true) →
  (∀ msg, raw = Some msg →
     truthy (get (get msg "payload") "name") = true →
     ∃ s, get (get msg "payload") "name" = Str s) →
  ∃ st' sent, onMessage isOpen ws raw st = Completed st' sent.
Proof.
  intros m r Hrid Hqid Hname.
  destruct (onMessage isOpen ws raw st) as [st' sent|e] eqn:E; [eauto|].
  apply throw_needs_ballotKey in E
    as (msg & q & index & -> & _ & _ & _ & Hq & _ & _ & _ & Hn & Hkey).
  destruct (Hname msg eq_refl Hn) as [s Hs].
  destruct (ToString_primitive _ Hrid) as [sr Hsr].
  destruct (ToString_primitive _ (Hqid q Hq)) as [si Hsi].
  unfold ballotKey in Hkey. fold m in Hkey. by rewrite Hsr, Hsi, Hs in Hkey.
Qed.

(** X18.  A ballot belongs to a name, not to a connection.  After a vote
    under one name is accepted, a vote of any connection bound to the same
    room id, the voter itself included, is rejected as a duplicate when its
    name is the same once trimmed and lower-cased, whatever option in range
    it picks; under a name that differs after trimming and lower-casing, and
    whose key is new, it is accepted and the total has grown by two. *)
Theorem ballot_is_by_name isOpen1 isOpen2 ws1 ws2 vote1 vote2 st q
    s1 s2 index1 index2 key1 :
  let rid := roomId (metaOf st ws1) in
  let k := identity rid in
  let r := roomOf (rooms st) k in
  let p1 := get vote1 "payload" in
  let p2 := get vote2 "payload" in
  let len := length (entries (counts r)) in
  truthy rid = true → roomId (metaOf st ws2) = rid →
  question r = Some q →
  get vote1 "type" = Str "VOTE" → get vote2 "type" = Str "VOTE" →
  strictEquals (get p1 "questionId") (qid q) = true →
  strictEquals (get p2 "questionId") (qid q) = true →
  get p1 "optionIndex" = Num index1 → get p2 "optionIndex" = Num index2 →
  ltZero index1 || geLength index1 len = false →
  ltZero index2 || geLength index2 len = false →
  get p1 "name" = Str s1 → get p2 "name" = Str s2 → s1 ≠ "" → s2 ≠ "" →
  ballotKey rid (qid q) (Str s1) = inr key1 → key1 ∉ votedBy r →
  ∃ st1 sent1,
    onMessage isOpen1 ws1 (Some vote1) st = Completed st1 sent1
    ∧ (String_toLowerCase (String_trim s2) = String_toLowerCase (String_trim s1) →
       onMessage isOpen2 ws2 (Some vote2) st1
       = Completed st1 (safeSend isOpen2 ws2 (errorMsg Err.DuplicateVote)))
    ∧ (∀ key2, ballotKey rid (qid q) (Str s2) = inr key2 →
         key2 ≠ key1 → key2 ∉ votedBy r →
         ∃ st2 sent2,
           onMessage isOpen2 ws2 (Some vote2) st1 = Completed st2 sent2
           ∧ total (roomOf (rooms st2) k) = (total r + 2)%Z
           ∧ votedBy (roomOf (rooms st2) k) = {[key2]} ∪ ({[key1]} ∪ votedBy r)).
Proof.
  intros rid k r p1 p2 len Hm Hrid2 Hq Ht1 Ht2 Hqid1 Hqid2 Hi1 Hi2 Hr1 Hr2
         Hn1 Hn2 Hs1 Hs2 Hkey1 Hfresh1.
  apply orb_false_iff in Hr1 as [Hlt1 Hge1].
  assert (truthy (Str s1) = true) as Htn1
    by (simpl; by rewrite bool_decide_eq_false_2).
  assert (truthy (Str s2) = true) as Htn2
    by (simpl; by rewrite bool_decide_eq_false_2).
  set (r1 := Room (question r) (increment (counts r) index1) (total r + 1)
                  ({[key1]} ∪ votedBy r) (clients r)).
  set (st1 := State (<[k := r1]> (rooms st)) (metas st)).
  assert (Hmeta : roomId (metaOf st1 ws2) = rid) by done.
  assert (Hr1' : roomOf (rooms st1) k = r1).
  { unfold st1. simpl. by rewrite roomOf_insert, decide_True. }
  assert (Hsame1 : State (<[k := r1]> (rooms st1)) (metas st1) = st1).
  { unfold st1. simpl. by rewrite insert_insert_eq. }
  assert (Hp2 : truthy p2 = true).
  { apply (truthy_Obj _ "name"). fold p2. by rewrite Hn2. }
  assert (∃ sent1, onMessage isOpen1 ws1 (Some vote1) st = Completed st1 sent1)
    as [sent1 Hvote1].
  { eexists.
    apply (vote_accepted isOpen1 ws1 vote1 st q index1 key1); fold rid k r p1;
      try done; by rewrite Hn1. }
  clearbody st1. exists st1, sent1. split_and!; [done| |].
  - intros Hsame.
    rewrite onMessage_command;
      [|by rewrite Ht2|done|by rewrite Ht2|by rewrite Hmeta].
    rewrite Ht2. simpl. unfold onVote. fold p2. rewrite Hmeta. fold k.
    rewrite Hr1', Hsame1. simpl. rewrite Hq, Hqid2, Hi2. simpl.
    rewrite increment_length. fold len. rewrite Hr2, Hn2, Htn2. simpl.
    assert (ballotKey rid (qid q) (Str s2) = inr key1) as ->.
    { revert Hkey1. unfold ballotKey. destruct (ToString rid); [done|].
      destruct (ToString (qid q)); [done|]. by rewrite Hsame. }
    rewrite bool_decide_eq_true_2; [done|]. simpl.
    apply elem_of_union_l, elem_of_singleton. done.
  - intros key2 Hkey2 Hne Hfresh2. do 2 eexists. split.
    + apply (vote_accepted isOpen2 ws2 vote2 st1 q index2 key2);
        rewrite ?Hmeta; fold k; rewrite ?Hr1'; fold p2; try done.
      * by apply orb_false_iff in Hr2 as [? _].
      * simpl. rewrite increment_length. by apply orb_false_iff in Hr2 as [_ ?].
      * by rewrite Hn2.
      * by rewrite Hn2.
      * simpl. rewrite not_elem_of_union, not_elem_of_singleton. done.
    + rewrite Hmeta. fold k. rewrite Hr1'. simpl.
      rewrite roomOf_insert, decide_True by done. simpl. split; [lia|done].
Qed.
End Keys.

(** ** Executions of the server on concrete messages *)

(** ** What stays: memberships and ballots *)

Section Persistence.
Context `{Runtime}.

Lemma roomOf_insert_same (rs : gmap ident room) k0 k :
  roomOf (<[k0 := roomOf rs k0]> rs) k = roomOf rs k.
Proof. rewrite roomOf_insert. by destruct (decide (k0 = k)) as [<-|]. Qed.

(** A message removes no client from any room, and only a
    [HOST_SET_QUESTION] of a host bound to a room removes a ballot key of
    that room. *)
Lemma onMessage_keeps isOpen ws raw st st' sent k :
  onMessage isOpen ws raw st = Completed st' sent →
  let r := roomOf (rooms st) k in
  let r' := roomOf (rooms st') k in
  (∀ c, c ∈ clients r → c ∈ clients r')
  ∧ (votedBy r ⊆ votedBy r'
     ∨ (votedBy r' = ∅
        ∧ ∃ msg, raw = Some msg ∧ get msg "type" = Str "HOST_SET_QUESTION"
                 ∧ role (metaOf st ws) = Str "host" ∧ boundTo st ws k)).
Proof.
  intros Hrun r r'. unfold r, r'. clear r r'.
  assert (Hstay : ∀ s e,
    roomOf (rooms s) k = roomOf (rooms st) k →
    Completed s (safeSend isOpen ws (errorMsg e)) = Completed st' sent →
    (∀ c, c ∈ clients (roomOf (rooms st) k) → c ∈ clients (roomOf (rooms st') k))
    ∧ (votedBy (roomOf (rooms st) k) ⊆ votedBy (roomOf (rooms st') k)
       ∨ (votedBy (roomOf (rooms st') k) = ∅
          ∧ ∃ msg, raw = Some msg ∧ get msg "type" = Str "HOST_SET_QUESTION"
                   ∧ role (metaOf st ws) = Str "host" ∧ boundTo st ws k))).
  { intros s e Hs [= <- _]. rewrite Hs. split; [done|by left]. }
  revert Hrun. unfold onMessage.
  destruct raw as [msg|]; [|by apply Hstay].
  rewrite !get_orEmpty.
  destruct (negb (truthy (get msg "type")) || negb (truthy (get msg "payload")));
    [by apply Hstay|].
  destruct (strictEquals (get msg "type") (Str "JOIN")).
  { destruct (validJoin (get msg "payload")) eqn:Hv.
    - rewrite (onJoin_valid _ _ _ _ Hv). intros [= <- _]. simpl.
      rewrite roomOf_insert.
      destruct (decide (identity (get (get msg "payload") "roomId") = k))
        as [<-|]; [|split; [done|by left]].
      simpl. split; [|by left]. intros c Hc. apply elem_of_setAdd. by right.
    - destruct (onJoin_invalid isOpen ws (get msg "payload") st Hv) as [e ->].
      by apply Hstay. }
  destruct (truthy (roomId (metaOf st ws))) eqn:Hm; simpl; [|by apply Hstay].
  rewrite getRoom_roomOf.
  pose proof (roomOf_insert_same (rooms st) (identity (roomId (metaOf st ws))) k)
    as Hsame.
  destruct (strictEquals (get msg "type") (Str "HOST_SET_QUESTION")) eqn:Ht.
  { apply strictEquals_Str in Ht. unfold onSetQuestion.
    destruct (strictEquals (role (metaOf st ws)) (Str "host")) eqn:Hrole; simpl;
      [|by apply Hstay].
    apply strictEquals_Str in Hrole.
    destruct (negb _ || negb _ || negb _ || negb _); [by apply Hstay|].
    destruct (_ || _); [by apply Hstay|].
    rewrite insert_insert_eq, roomState_insert, broadcast_insert.
    intros [= <- _]. simpl. rewrite roomOf_insert.
    destruct (decide (identity (roomId (metaOf st ws)) = k)) as [<-|];
      [|split; [done|by left]].
    simpl. split; [done|]. right. split; [done|].
    exists msg. by split_and!; [..|split]. }
  destruct (strictEquals (get msg "type") (Str "VOTE")); [|by apply Hstay].
  unfold onVote. destruct (question _) as [q|]; [|by apply Hstay].
  destruct (negb (strictEquals _ _)); [by apply Hstay|].
  destruct (get (get msg "payload") "optionIndex"); try by apply Hstay.
  destruct (_ || _); [by apply Hstay|].
  destruct (negb _); [by apply Hstay|].
  destruct (ballotKey _ _ _) as [e|key]; [done|].
  case_bool_decide; [by apply Hstay|].
  rewrite insert_insert_eq, roomState_insert, broadcast_insert.
  intros [= <- _]. simpl. rewrite roomOf_insert.
  destruct (decide (identity (roomId (metaOf st ws)) = k)) as [<-|];
    [|split; [done|by left]].
  simpl. split; [done|]. left. apply union_subseteq_r.
Qed.

(** The only event that removes a connection from a room is its own close,
    while it is bound to that room. *)
Lemma step_keeps_member e st st' k c :
  step e st = Some st' → member st k c →
  member st' k c ∨ (e = Close c ∧ boundTo st c k).
Proof.
  rewrite !member_roomOf. destruct e as [ws|isOpen ws raw|ws]; simpl.
  - intros [= <-]. by left.
  - destruct (onMessage isOpen ws raw st) as [s sent|] eqn:E; [|done].
    intros [= <-] Hc. left. by apply (onMessage_keeps _ _ _ _ _ _ k E).
  - intros [= <-] Hc.
    destruct (truthy (roomId (metaOf st ws))) eqn:Hm; last first.
    { left. unfold onClose. by rewrite Hm. }
    rewrite onClose_joined by done. simpl. rewrite roomOf_insert.
    destruct (decide (identity (roomId (metaOf st ws)) = k)) as [<-|];
      [|by left].
    simpl. destruct (decide (c = ws)) as [->|Hne]; [by right|].
    left. by apply elem_of_setDelete.
Qed.

Lemma run_keeps_member es st st' k c :
  Forall (λ e, e ≠ Close c) es →
  run es st = Some st' → member st k c → member st' k c.
Proof.
  intros Hes. revert st. induction Hes as [|e es He _ IH]; simpl; intros st.
  - by intros [= <-].
  - destruct (step e st) as [s|] eqn:E; simpl; [|done].
    intros Hrun Hmem. apply (IH s Hrun).
    by destruct (step_keeps_member _ _ _ _ _ E Hmem) as [?|[? _]].
Qed.

(** A message of a connection that is not a successful [JOIN], and any
    event of another connection, leave its [meta] alone. *)
Lemma step_keeps_binding e st st' ws :
  step e st = Some st' → keepsBinding ws e → metaOf st' ws = metaOf st ws.
Proof.
  intros Hstep Hkeep. destruct (decide (connOf e = ws)) as [Hws|Hws].
  - destruct (Hkeep Hws) as (isOpen & raw & -> & Hv). simpl in Hstep.
    destruct (onMessage isOpen ws raw st) as [s sent|] eqn:E; [|done].
    injection Hstep as <-.
    apply onMessage_cases in E as [(msg & _ & Hv' & _)|[_ [->|(r' & _ & _ & ->)]]];
      [congruence|done|done].
  - by destruct (transition_other _ _ _ _ ws (step_transition _ _ _ Hstep)).
Qed.

Lemma run_keeps_binding es st st' ws :
  Forall (keepsBinding ws) es →
  run es st = Some st' → metaOf st' ws = metaOf st ws.
Proof.
  intros Hes. revert st. induction Hes as [|e es He _ IH]; simpl; intros st.
  - by intros [= <-].
  - destruct (step e st) as [s|] eqn:E; simpl; [|done].
    intros ->%IH. by eapply step_keeps_binding.
Qed.

(** A ballot key leaves [votedBy] only when a host of the room puts a
    question. *)
Lemma step_keeps_ballot e st st' k key :
  step e st = Some st' →
  key ∈ votedBy (roomOf (rooms st) k) →
  key ∈ votedBy (roomOf (rooms st') k)
  ∨ (asksQuestion k st e ∧ votedBy (roomOf (rooms st') k) = ∅).
Proof.
  destruct e as [ws|isOpen ws raw|ws]; simpl.
  - intros [= <-]. by left.
  - destruct (onMessage isOpen ws raw st) as [s sent|] eqn:E; [|done].
    intros [= <-] Hkey.
    destruct (onMessage_keeps _ _ _ _ _ _ k E) as [_ [Hsub|Hask]].
    + left. by apply Hsub.
    + right. destruct Hask as (Hempty & msg & -> & ? & ? & ?).
      split; [by exists isOpen, ws, msg|done].
  - intros [= <-] Hkey. left.
    destruct (truthy (roomId (metaOf st ws))) eqn:Hm; last first.
    { unfold onClose. by rewrite Hm. }
    rewrite onClose_joined by done. simpl. rewrite roomOf_insert.
    by destruct (decide (identity (roomId (metaOf st ws)) = k)) as [<-|].
Qed.

Lemma run_keeps_ballot es st st' k key :
  run es st = Some st' →
  key ∈ votedBy (roomOf (rooms st) k) →
  key ∉ votedBy (roomOf (rooms st') k) →
  ∃ es1 e es2 s s',
    es = es1 ++ e :: es2 ∧ run es1 st = Some s ∧ step e s = Some s'
    ∧ asksQuestion k s e
    ∧ key ∈ votedBy (roomOf (rooms s) k) ∧ votedBy (roomOf (rooms s') k) = ∅.
Proof.
  revert st. induction es as [|e es IH]; simpl; intros st.
  - by intros [= <-].
  - destruct (step e st) as [s|] eqn:E; simpl; [|done].
    intros Hrun Hin Hout.
    destruct (step_keeps_ballot _ _ _ _ _ E Hin) as [Hin'|Hask].
    + destruct (IH s Hrun Hin' Hout)
        as (es1 & e' & es2 & s1 & s2 & -> & Hrun1 & Hrest).
      exists (e :: es1), e', es2, s1, s2. split_and!; [done| |apply Hrest..].
      simpl. by rewrite E.
    + destruct Hask as [Hask Hempty]. by exists [], e, es, st, s.
Qed.
(** C2, as amended.  In every state the server reaches, [total] is the
    number of ballot keys in [votedBy], so no key stands for two recorded
    votes.  A vote whose ballot key is in [votedBy] is rejected and leaves
    the state as it was, whatever its option index; the rejection is
    [DuplicateVote] when the vote names the active question, has a name and
    an integer option index that is one of the question's options.  Such a
    vote with a key that is not in [votedBy] is recorded and adds its key.
    And a key that is in [votedBy] stays there along every execution until
    a [HOST_SET_QUESTION] of a host of that room empties [votedBy]: between
    two recorded votes with one key, the question of the room was put
    again. *)
Theorem one_ballot_until_question_set es st :
  run es initial = Some st →
  oneBallotPerVote st
  ∧ (∀ isOpen ws msg q key,
       let m := metaOf st ws in
       let k := identity (roomId m) in
       let r := roomOf (rooms st) k in
       let payload := get msg "payload" in
       let valid :=
         strictEquals (get payload "questionId") (qid q) = true
         ∧ (∃ z, get payload "optionIndex" = Num (integer z)
                 ∧ (0 ≤ z < Z.of_nat (length (qoptions q)))%Z)
         ∧ truthy (get payload "name") = true in
       truthy (roomId m) = true →
       get msg "type" = Str "VOTE" →
       truthy payload = true →
       question r = Some q →
       ballotKey (roomId m) (qid q) (get payload "name") = inr key →
       (key ∈ votedBy r →
          ∃ e, onMessage isOpen ws (Some msg) st
               = Completed st (if isOpen ws then [(ws, ERROR e)] else [])
               ∧ (valid → e = Err.DuplicateVote))
       ∧ (key ∉ votedBy r → valid →
          ∃ st' sent, onMessage isOpen ws (Some msg) st = Completed st' sent
                      ∧ votedBy (roomOf (rooms st') k) = {[key]} ∪ votedBy r
                      ∧ total (roomOf (rooms st') k) = (total r + 1)%Z))
  ∧ (∀ es' st' k key,
       run es' st = Some st' →
       key ∈ votedBy (roomOf (rooms st) k) →
       key ∉ votedBy (roomOf (rooms st') k) →
       ∃ es1 e es2 s s',
         es' = es1 ++ e :: es2 ∧ run es1 st = Some s ∧ step e s = Some s'
         ∧ asksQuestion k s e
         ∧ key ∈ votedBy (roomOf (rooms s) k)
         ∧ votedBy (roomOf (rooms s') k) = ∅).
Proof.
  intros (Hwf & _ & Hone & Hcounts)%reachable_invariants.
  split_and!; [done| |intros es' st' k key; apply run_keeps_ballot].
  intros isOpen ws msg q key m k r payload valid Hm Ht Hp Hq Hkey.
  destruct (joined_room_unchanged st ws Hwf Hm) as [Hsame Hroom].
  change (State (<[k := r]> (rooms st)) (metas st) = st) in Hsame.
  change (rooms st !! k = Some r) in Hroom.
  assert (length (entries (counts r)) = length (qoptions q)) as Hlen.
  { specialize (Hcounts _ _ Hroom). simpl in Hcounts. by rewrite Hq in Hcounts. }
  assert (Hrange : ∀ z, (0 ≤ z < Z.of_nat (length (qoptions q)))%Z →
            ltZero (integer z) = false
            ∧ geLength (integer z) (length (entries (counts r))) = false).
  { intros z Hz.
    destruct (integer_spec z (length (entries (counts r)))) as (-> & -> & _).
    rewrite Hlen. split; apply bool_decide_eq_false; lia. }
  split.
  - intros Hdup.
    rewrite onMessage_command; [|by rewrite Ht|done|by rewrite Ht|done].
    rewrite Ht. simpl. unfold onVote. fold m k r payload.
    rewrite Hsame, Hq. unfold valid, safeSend, errorMsg.
    destruct (strictEquals (get payload "questionId") (qid q)); simpl;
      [|eexists; split; [done|]; by intros (? & _)].
    destruct (get payload "optionIndex") as [| | |index| | |];
      try (eexists; split; [done|]; by intros (_ & (? & ? & _) & _)).
    destruct (ltZero index || geLength index (length (entries (counts r))))
      eqn:Hout.
    { eexists. split; [done|].
      intros (_ & (z & [= ->] & Hz) & _).
      destruct (Hrange z Hz) as [Hlt Hge]. by rewrite Hlt, Hge in Hout. }
    destruct (truthy (get payload "name")); simpl;
      [|eexists; split; [done|]; by intros (_ & _ & ?)].
    rewrite Hkey. rewrite bool_decide_eq_true_2 by done.
    eexists. by split.
  - intros Hfresh (Hqid & (z & Hi & Hz) & Hn).
    destruct (Hrange z Hz) as [Hlt Hge].
    do 2 eexists. split.
    + by apply (vote_accepted isOpen ws msg st q (integer z) key).
    + simpl. fold m k. by rewrite roomOf_insert, decide_True.
Qed.

(** C10, as amended.  A connection that joins room [a] and later room [b]
    stays among the clients of both, whatever it and the other connections
    send, for as long as it does not close: a broadcast to [a] still goes
    to it while its socket is open.  Its close removes it from the room it
    is bound to at that moment, the room of its last successful [JOIN], and
    from no other: its entry in every other room stays, and no later event
    removes it.  When the connection joined no room after [b], the room it
    leaves is [b] and the entry that stays is that in [a]. *)
Theorem close_leaves_bound_room_only ws st joinA joinB openA openB
    es1 es2 es3 s1 s2 s3 :
  let a := get (get joinA "payload") "roomId" in
  let b := get (get joinB "payload") "roomId" in
  isValidJoin (Some joinA) = true → isValidJoin (Some joinB) = true →
  identity a ≠ identity b →
  Forall (λ e, e ≠ Close ws) (es1 ++ es2 ++ es3) →
  run (Message openA ws (Some joinA) :: es1) st = Some s1 →
  run (Message openB ws (Some joinB) :: es2) s1 = Some s2 →
  run (Close ws :: es3) s2 = Some s3 →
  member s1 (identity a) ws
  ∧ member s2 (identity a) ws ∧ member s2 (identity b) ws
  ∧ (∀ isOpen m, isOpen ws = true →
       (ws, m) ∈ (broadcast isOpen a m (rooms s2)).2)
  ∧ (∀ k, boundTo s2 ws k → ¬ member (onClose ws s2) k ws)
  ∧ (∀ k, member s2 k ws → ¬ boundTo s2 ws k →
          member (onClose ws s2) k ws ∧ member s3 k ws)
  ∧ (Forall (keepsBinding ws) es2 →
       boundTo s2 ws (identity b)
       ∧ ¬ member (onClose ws s2) (identity b) ws
       ∧ member (onClose ws s2) (identity a) ws
       ∧ member s3 (identity a) ws
       ∧ (Forall (λ e, connOf e ≠ ws) es3 → ¬ member s3 (identity b) ws)).
Proof.
  intros a b Ha Hb Hab Hes Hrun1 Hrun2 Hrun3.
  apply Forall_app in Hes as [Hes1 Hes]. apply Forall_app in Hes as [Hes2 Hes3].
  destruct (onMessage_validJoin openA ws joinA st Ha) as (Hta & sa & Hja).
  apply run_Message in Hrun1 as (? & ? & Hj & Hrun1).
  rewrite Hja in Hj. injection Hj as <- _.
  assert (member s1 (identity a) ws) as H1.
  { apply (run_keeps_member _ _ _ _ _ Hes1 Hrun1), member_roomOf. simpl.
    rewrite roomOf_insert, decide_True by done. apply elem_of_setAdd. by left. }
  destruct (onMessage_validJoin openB ws joinB s1 Hb) as (Htb & sb & Hjb).
  apply run_Message in Hrun2 as (? & ? & Hj & Hrun2).
  rewrite Hjb in Hj. injection Hj as <- _.
  assert (member s2 (identity a) ws) as H2a.
  { apply (run_keeps_member _ _ _ _ _ Hes2 Hrun2), member_roomOf. simpl.
    rewrite roomOf_insert, decide_False by done. by apply member_roomOf. }
  assert (member s2 (identity b) ws) as H2b.
  { apply (run_keeps_member _ _ _ _ _ Hes2 Hrun2), member_roomOf. simpl.
    rewrite roomOf_insert, decide_True by done. apply elem_of_setAdd. by left. }
  change (run es3 (onClose ws s2) = Some s3) in Hrun3.
  assert (Hleft : ∀ k, boundTo s2 ws k → ¬ member (onClose ws s2) k ws).
  { intros k [Hm <-]. rewrite onClose_joined, member_roomOf by done. simpl.
    rewrite roomOf_insert, decide_True by done. simpl.
    rewrite elem_of_setDelete. by intros [? _]. }
  assert (Hkept : ∀ k, member s2 k ws → ¬ boundTo s2 ws k →
            member (onClose ws s2) k ws ∧ member s3 k ws).
  { intros k Hk Hnb.
    assert (member (onClose ws s2) k ws) as Hk'.
    { by destruct (step_keeps_member (Close ws) s2 _ k ws eq_refl Hk)
        as [?|[_ ?]]. }
    split; [done|]. by apply (run_keeps_member _ _ _ _ _ Hes3 Hrun3). }
  split_and!; try done.
  - intros isOpen m Hopen. by apply broadcast_reaches.
  - intros Hkeep.
    assert (boundTo s2 ws (identity b)) as Hbound.
    { unfold boundTo. rewrite (run_keeps_binding _ _ _ _ Hkeep Hrun2).
      by rewrite metaOf_insert, decide_True. }
    assert (¬ boundTo s2 ws (identity a)) as Hnot.
    { intros [_ E]. destruct Hbound as [_ E']. congruence. }
    destruct (Hkept _ H2a Hnot) as [? ?].
    split_and!; try done; [by apply Hleft|].
    intros Hothers.
    destruct (run_others _ _ _ _ Hothers Hrun3) as [_ Hmem3].
    rewrite Hmem3. by apply Hleft.
Qed.
End Persistence.

Module Examples.
Import Scenario.

Local Ltac compute_eq := vm_compute; reflexivity.
Local Ltac decide_by_computation :=
  apply (bool_decide_unpack _); vm_compute; exact I.

(** Scenarios A and B of the specification. *)
Example scenario_question :
  run joins initial = Some (after joins)
  ∧ onMessage allOpen 1 (setQuestion "q1" "Color?" ["Red"; "Blue"]) (after joins)
    = Completed (after asked)
        [(1, snapshot [0; 0]%Z 0); (2, snapshot [0; 0]%Z 0)].
Proof. split; vm_compute; reflexivity. Qed.

Example scenario_vote :
  onMessage allOpen 2 (vote "q1" (int 1) (Str "Ana")) (after asked)
  = Completed (after voted) [(1, snapshot [0; 1]%Z 1); (2, snapshot [0; 1]%Z 1)]
  ∧ onMessage allOpen 2 (vote "q1" (int 0) (Str "ana")) (after voted)
    = Completed (after voted) [(2, ERROR Err.DuplicateVote)].
Proof. split; vm_compute; reflexivity. Qed.

(** C1.  After a vote whose [optionIndex] is [0.5] the room has [total = 1]
    while both entries of [counts] are still [0]: the vote went to the
    property [counts["0.5"]], which is not an entry.  So the state does
    not satisfy [total == sum(counts)]. *)
Theorem fractional_vote_breaks_total :
  run halfVoted initial = Some (after halfVoted)
  ∧ entries (counts (R1 (after halfVoted))) = [0; 0]%Z
  ∧ nanKeys (counts (R1 (after halfVoted))) = {[ Q2Qc (1 # 2) ]}
  ∧ total (R1 (after halfVoted)) = 1%Z
  ∧ sum (entries (counts (R1 (after halfVoted)))) = 0%Z
  ∧ ¬ totalsMatch (after halfVoted).
Proof.
  assert (rooms (after halfVoted) !! IStr "R1" = Some (R1 (after halfVoted)))
    as Hroom by (vm_compute; reflexivity).
  assert (total (R1 (after halfVoted)) = 1%Z) as Htotal
    by (vm_compute; reflexivity).
  assert (sum (entries (counts (R1 (after halfVoted)))) = 0%Z) as Hsum
    by (vm_compute; reflexivity).
  split_and!; try (vm_compute; reflexivity).
  intros Hmatch. specialize (Hmatch _ _ Hroom). cbv beta in Hmatch.
  rewrite Htotal, Hsum in Hmatch. discriminate.
Qed.

(** C3.  A vote with [optionIndex] [0.5] on a question with two options is
    not answered with [InvalidOption]: it is accepted, its ballot is
    recorded, and the new snapshot, with [total] raised and [counts] as
    before, goes to every client. *)
Theorem fractional_index_accepted :
  isInteger (Finite (Q2Qc (1 # 2))) = false
  ∧ onMessage allOpen 2 (vote "q1" half (Str "Ana")) (after asked)
    = Completed (after halfVoted)
        [(1, snapshot [0; 0]%Z 1); (2, snapshot [0; 0]%Z 1)]
  ∧ votedBy (R1 (after halfVoted)) = {["R1:q1:ana"]}
  ∧ total (R1 (after asked)) = 0%Z
  ∧ total (R1 (after halfVoted)) = 1%Z.
Proof. split_and!; vm_compute; reflexivity. Qed.

(** C5.  A vote whose [name] is the number [7] passes the checks of lines
    109-113 and makes the handler throw a [TypeError] on line 115; nothing
    catches it, and the execution ends there. *)
Theorem vote_with_numeric_name_throws :
  onMessage allOpen 2 (vote "q1" (int 0) (int 7)) (after asked)
  = Threw TypeError
  ∧ run (asked ++ [Message allOpen 2 (vote "q1" (int 0) (int 7))]) initial
    = None.
Proof. split; vm_compute; reflexivity. Qed.

(** C2, as stated, fails.  The player votes on question [q1] under the name
    Ana, and the key [R1:q1:ana] is in [votedBy].  The host puts a question
    with the same id again.  A further vote of the player, with the same
    key and a valid option index, is not answered with [DuplicateVote]: it
    is recorded, so two successful votes were recorded for the room, the
    question id and the name. *)
Lemma same_key_recorded_twice :
  run revoted initial = Some (after revoted)
  ∧ ballotKey (Str "R1") (Str "q1") (Str "Ana") = inr "R1:q1:ana"
  ∧ onMessage allOpen 2 (vote "q1" (int 1) (Str "Ana")) (after asked)
    = Completed (after voted) [(1, snapshot [0; 1]%Z 1); (2, snapshot [0; 1]%Z 1)]
  ∧ votedBy (R1 (after voted)) = {["R1:q1:ana"]}
  ∧ onMessage allOpen 1 (setQuestion "q1" "Color?" ["Red"; "Blue"]) (after voted)
    = Completed (after reasked) [(1, snapshot [0; 0]%Z 0); (2, snapshot [0; 0]%Z 0)]
  ∧ onMessage allOpen 2 (vote "q1" (int 0) (Str "Ana")) (after reasked)
    = Completed (after revoted) [(1, snapshot [1; 0]%Z 1); (2, snapshot [1; 0]%Z 1)]
  ∧ votedBy (R1 (after revoted)) = {["R1:q1:ana"]}.
Proof. split_and!; vm_compute; reflexivity. Qed.

(** C10, as stated, fails.  Connection 1 joins [R1], later [R2], then [R1]
    again, and closes: the close removes it from [R1], the room that was
    to keep it, and leaves it in [R2], the room that was to lose it. *)
Lemma close_after_return_leaves_first_room :
  run returnedClosed initial = Some (after returnedClosed)
  ∧ isValidJoin (join "R1" "Host" "host") = true
  ∧ isValidJoin (join "R2" "Host" "host") = true
  ∧ member (after returned) (IStr "R1") 1
  ∧ member (after returned) (IStr "R2") 1
  ∧ onClose 1 (after returned) = after returnedClosed
  ∧ ¬ member (after returnedClosed) (IStr "R1") 1
  ∧ member (after returnedClosed) (IStr "R2") 1.
Proof.
  split_and!; try (vm_compute; reflexivity);
    rewrite member_roomOf; decide_by_computation.
Qed.

(** *** The theorems above at concrete inputs *)

(** C8 on the initial state: connection 1 has not joined; its vote gets
    [NotJoined], and its [JOIN] with an empty room id fails. *)
Lemma unjoined_rejected_witness :
  truthy (roomId (metaOf initial 1)) = false
  ∧ onMessage allOpen 1 (vote "q1" (int 0) (Str "Ana")) initial
    = Completed initial [(1, ERROR Err.NotJoined)]
  ∧ ∃ e, onMessage allOpen 1 (join "" "Ana" "player") initial
         = Completed initial [(1, ERROR e)].
Proof.
  assert (truthy (roomId (metaOf initial 1)) = false) as Hun by reflexivity.
  split; [exact Hun|]. split.
  - apply (proj1 (unjoined_rejected allOpen 1 _ initial Hun) _ eq_refl);
      [reflexivity|reflexivity|discriminate].
  - apply (proj2 (unjoined_rejected allOpen 1 _ initial Hun)). reflexivity.
Defined.

(** C6 on a vote that lacks its name, sent by the player after the question
    was put. *)
Lemma unsupported_rejected_witness :
  joinedRoomsExist (after asked) ∧ questionsHaveId (after asked)
  ∧ unsupported namelessVote
  ∧ ∃ e, onMessage allOpen 2 namelessVote (after asked)
         = Completed (after asked) [(2, ERROR e)]
         ∧ ∀ c m, (c, m) ∈ [(2, ERROR e)] → c = 2 ∧ m = ERROR e.
Proof.
  assert (joinedRoomsExist (after asked)) as Hwf by decide_by_computation.
  assert (questionsHaveId (after asked)) as Hid by decide_by_computation.
  assert (unsupported namelessVote) as Hun.
  { apply (VoteFieldMissing _ "name"); [reflexivity| |reflexivity].
    repeat constructor. }
  split_and!; [done..|].
  apply (unsupported_rejected allOpen 2 namelessVote (after asked) Hwf Hid Hun).
Defined.

(** C7 on the player of room [R1] trying to put a question. *)
Lemma only_host_sets_question_witness :
  joinedRoomsExist (after asked)
  ∧ role (metaOf (after asked) 2) ≠ Str "host"
  ∧ onMessage allOpen 2 (setQuestion "q2" "Size?" ["S"; "M"; "L"]) (after asked)
    = Completed (after asked) [(2, ERROR Err.Forbidden)].
Proof.
  assert (joinedRoomsExist (after asked)) as Hwf by decide_by_computation.
  assert (role (metaOf (after asked) 2) ≠ Str "host") as Hrole
    by (vm_compute; discriminate).
  split_and!; [done..|].
  apply (proj1 (only_host_sets_question allOpen 2 _ (after asked) Hwf)
           _ eq_refl);
    [compute_eq|exact Hrole|reflexivity|reflexivity].
Defined.

(** C9 on the first [JOIN] the server receives. *)
Lemma join_binds_session_witness :
  ∃ st',
    onMessage allOpen 1 (join "R1" "Host" "host") initial
    = Completed st' [(1, STATE (Str "R1") None [] 0)]
    ∧ metas st' = {[ 1 := Meta (Str "R1") (Str "Host") (Str "host") ]}
    ∧ rooms st' = {[ IStr "R1" := Room None (CountsArray [] ∅) 0 ∅ [1] ]}
    ∧ member st' (IStr "R1") 1.
Proof.
  destruct (join_binds_session allOpen 1 (joinMsg "R1" "Host" "host") initial)
    as (st' & Hrun & Hmetas & Hrooms & Hmember & _);
    [reflexivity|reflexivity|reflexivity|by left|].
  exists st'. split_and!; [exact Hrun|exact Hmetas|exact Hrooms|exact Hmember].
Defined.

(** C4 on the host of room [R1] putting a second question after the player
    voted on the first: the counts, the total and the ballot of the first
    question are gone, both clients get the new snapshot, and the player
    votes again under the same name. *)
Lemma setQuestion_resets_witness :
  R1 (after voted)
  = Room (Some q1) (CountsArray [0; 1]%Z ∅) 1 {["R1:q1:ana"]} [1; 2]
  ∧ onMessage allOpen 1 (setQuestion "q2" "Size?" ["S"; "M"; "L"]) (after voted)
    = Completed (after askedNext)
        [(1, STATE (Str "R1") (Some q2) [0; 0; 0]%Z 0);
         (2, STATE (Str "R1") (Some q2) [0; 0; 0]%Z 0)]
  ∧ R1 (after askedNext)
    = Room (Some q2) (CountsArray [0; 0; 0]%Z ∅) 0 ∅ [1; 2]
  ∧ ∃ st'' sent,
      onMessage allOpen 2 (vote "q2" (int 2) (Str "Ana")) (after askedNext)
      = Completed st'' sent
      ∧ votedBy (R1 st'') = {["R1:q2:ana"]}
      ∧ total (R1 st'') = 1%Z.
Proof.
  assert (truthy (roomId (metaOf (after voted) 1)) = true) as Hm by compute_eq.
  assert (role (metaOf (after voted) 1) = Str "host") as Hrole by compute_eq.
  destruct (setQuestion_resets allOpen 1
              (setQuestionMsg "q2" "Size?" ["S"; "M"; "L"])
              (after voted) 3 [Str "S"; Str "M"; Str "L"] Hm Hrole
              eq_refl eq_refl eq_refl eq_refl
              (conj (le_S _ _ (le_n 2)) (le_S _ _ (le_n 3))))
    as (Hset & _ & Hvote).
  cbv zeta in Hset, Hvote.
  match type of Hset with
  | _ = Completed ?s ?l =>
      assert (s = after askedNext) as Hst by compute_eq;
      assert (l = [(1, STATE (Str "R1") (Some q2) [0; 0; 0]%Z 0);
                   (2, STATE (Str "R1") (Some q2) [0; 0; 0]%Z 0)]) as Hl
        by compute_eq
  end.
  rewrite Hst in Hvote. rewrite Hst, Hl in Hset.
  split_and!; [compute_eq|exact Hset|compute_eq|].
  apply (Hvote allOpen 2 (voteMsg "q2" (int 2) (Str "Ana"))
           (Finite (Q2Qc (inject_Z 2))) "R1:q2:ana");
    compute_eq.
Defined.

(** C2 on the state after the player's vote: a second vote under the same
    name, written with other case and spaces and for the other option, is a
    duplicate; the host's vote under another name is recorded; and when the
    key of the player is gone after a further execution, that execution
    contains a [HOST_SET_QUESTION] of a host of the room. *)
Lemma one_ballot_until_question_set_witness :
  run voted initial = Some (after voted)
  ∧ votedBy (R1 (after voted)) = {["R1:q1:ana"]}
  ∧ total (R1 (after voted)) = Z.of_nat (size (votedBy (R1 (after voted))))
  ∧ onMessage allOpen 2 (vote "q1" (int 0) (Str " ANA ")) (after voted)
    = Completed (after voted) [(2, ERROR Err.DuplicateVote)]
  ∧ (∃ st' sent,
       onMessage allOpen 1 (vote "q1" (int 0) (Str "Bob")) (after voted)
       = Completed st' sent
       ∧ votedBy (R1 st') = {["R1:q1:bob"]} ∪ votedBy (R1 (after voted))
       ∧ total (R1 st') = (total (R1 (after voted)) + 1)%Z)
  ∧ run [Message allOpen 1 (setQuestion "q1" "Color?" ["Red"; "Blue"])]
        (after voted) = Some (after reasked)
  ∧ ("R1:q1:ana" ∉ votedBy (R1 (after reasked)))
  ∧ ∃ es1 e es2 s s',
      [Message allOpen 1 (setQuestion "q1" "Color?" ["Red"; "Blue"])]
      = es1 ++ e :: es2
      ∧ run es1 (after voted) = Some s ∧ step e s = Some s'
      ∧ asksQuestion (IStr "R1") s e
      ∧ "R1:q1:ana" ∈ votedBy (roomOf (rooms s) (IStr "R1"))
      ∧ votedBy (roomOf (rooms s') (IStr "R1")) = ∅.
Proof.
  assert (run voted initial = Some (after voted)) as Hrun by compute_eq.
  assert (votedBy (R1 (after voted)) = {["R1:q1:ana"]}) as Hkeys by compute_eq.
  assert ("R1:q1:ana" ∈ votedBy (R1 (after voted))) as Hin
    by decide_by_computation.
  assert (run [Message allOpen 1 (setQuestion "q1" "Color?" ["Red"; "Blue"])]
              (after voted) = Some (after reasked)) as Hrun' by compute_eq.
  assert ("R1:q1:ana" ∉ votedBy (R1 (after reasked))) as Hout
    by decide_by_computation.
  destruct (one_ballot_until_question_set voted (after voted) Hrun)
    as (Hone & Hvote & Hkept).
  split_and!; [exact Hrun|exact Hkeys| | | |exact Hrun'|exact Hout|].
  - apply (Hone (IStr "R1")). compute_eq.
  - destruct (Hvote allOpen 2 (voteMsg "q1" (int 0) (Str " ANA ")) q1
                "R1:q1:ana") as [Hdup _];
      [compute_eq|reflexivity|reflexivity|compute_eq|compute_eq|].
    destruct (Hdup Hin) as (e & Hrej & He).
    assert (e = Err.DuplicateVote) as ->.
    { apply He. split_and!; [compute_eq| |reflexivity].
      exists 0%Z. split; [reflexivity|]. simpl. lia. }
    exact Hrej.
  - destruct (Hvote allOpen 1 (voteMsg "q1" (int 0) (Str "Bob")) q1
                "R1:q1:bob") as [_ Hnew];
      [compute_eq|reflexivity|reflexivity|compute_eq|compute_eq|].
    apply Hnew; [decide_by_computation|].
    split_and!; [compute_eq| |reflexivity].
    exists 0%Z. split; [reflexivity|]. simpl. lia.
  - exact (Hkept _ _ (IStr "R1") "R1:q1:ana" Hrun' Hin Hout).
Defined.

(** C10 on connection 1: it joins [R1], puts a question there and gets a
    vote, joins [R2] and puts a question there, and closes.  It is removed
    from [R2] and stays in [R1], also after the next event. *)
Lemma close_leaves_bound_room_only_witness :
  run moved3 initial = Some (after moved3)
  ∧ member (after moved2) (IStr "R1") 1 ∧ member (after moved2) (IStr "R2") 1
  ∧ (1, snapshot [0; 1]%Z 1)
    ∈ (broadcast allOpen (Str "R1") (snapshot [0; 1]%Z 1)
         (rooms (after moved2))).2
  ∧ boundTo (after moved2) 1 (IStr "R2")
  ∧ ¬ member (onClose 1 (after moved2)) (IStr "R2") 1
  ∧ member (onClose 1 (after moved2)) (IStr "R1") 1
  ∧ member (after moved3) (IStr "R1") 1
  ∧ ¬ member (after moved3) (IStr "R2") 1.
Proof.
  destruct (close_leaves_bound_room_only 1 initial
              (joinMsg "R1" "Host" "host") (joinMsg "R2" "Host" "host")
              allOpen allOpen
              [Message allOpen 2 (join "R1" "Ana" "player");
               Message allOpen 1 (setQuestion "q1" "Color?" ["Red"; "Blue"]);
               Message allOpen 2 (vote "q1" (int 1) (Str "Ana"))]
              [Message allOpen 1 (setQuestion "q2" "Size?" ["S"; "M"; "L"])]
              [Message allOpen 2 (join "R2" "Ana" "player")]
              (after moved1) (after moved2) (after moved3))
    as (_ & Ha2 & Hb2 & Hsend & _ & _ & Hlast);
    [reflexivity|reflexivity|discriminate
    |repeat constructor; discriminate
    |compute_eq|compute_eq|compute_eq|].
  destruct Hlast as (Hbound & Hb & Ha & Ha3 & Hb3).
  { repeat constructor. intros _. by eexists _, _. }
  split_and!; [compute_eq|exact Ha2|exact Hb2| |exact Hbound|exact Hb|exact Ha
              |exact Ha3|].
  - by apply (Hsend allOpen (snapshot [0; 1]%Z 1)).
  - apply Hb3. repeat constructor. discriminate.
Defined.

(** *** The further properties at concrete inputs *)

(** X2 on the execution that puts the first question. *)
Lemma rooms_never_removed_witness :
  run [Message allOpen 1 (setQuestion "q1" "Color?" ["Red"; "Blue"])]
      (after joins) = Some (after asked)
  ∧ dom (rooms (after joins)) ⊆ dom (rooms (after asked)).
Proof.
  assert (run [Message allOpen 1 (setQuestion "q1" "Color?" ["Red"; "Blue"])]
              (after joins) = Some (after asked)) as Hrun by compute_eq.
  split; [exact Hrun|]. exact (rooms_never_removed _ _ _ Hrun).
Defined.

(** X3 on the host's question: the player's session is untouched. *)
Lemma event_is_local_witness :
  step (Message allOpen 1 (setQuestion "q1" "Color?" ["Red"; "Blue"]))
       (after joins) = Some (after asked)
  ∧ metas (after asked) !! 2 = metas (after joins) !! 2.
Proof.
  assert (step (Message allOpen 1 (setQuestion "q1" "Color?" ["Red"; "Blue"]))
               (after joins) = Some (after asked)) as Hstep by compute_eq.
  split; [exact Hstep|].
  apply (proj1 (event_is_local _ _ _ Hstep)). discriminate.
Defined.

(** X5 on the broadcast of the player's vote. *)
Lemma sends_stay_in_room_witness :
  onMessage allOpen 2 (vote "q1" (int 1) (Str "Ana")) (after asked)
  = Completed (after voted) [(1, snapshot [0; 1]%Z 1); (2, snapshot [0; 1]%Z 1)]
  ∧ allOpen 1 = true
  ∧ (1 = 2 ∨ member (after voted)
               (identity (roomId (metaOf (after voted) 2))) 1).
Proof.
  assert (onMessage allOpen 2 (vote "q1" (int 1) (Str "Ana")) (after asked)
          = Completed (after voted)
              [(1, snapshot [0; 1]%Z 1); (2, snapshot [0; 1]%Z 1)]) as Hrun
    by compute_eq.
  split; [exact Hrun|].
  apply (sends_stay_in_room _ _ _ _ _ _ 1 (snapshot [0; 1]%Z 1) Hrun).
  apply list_elem_of_here.
Defined.

(** X6 on the same broadcast: it carries the tallies after the vote. *)
Lemma snapshot_is_current_witness :
  onMessage allOpen 2 (vote "q1" (int 1) (Str "Ana")) (after asked)
  = Completed (after voted) [(1, snapshot [0; 1]%Z 1); (2, snapshot [0; 1]%Z 1)]
  ∧ [0; 1]%Z = entries (counts (roomOf (rooms (after voted))
                                  (identity (roomId (metaOf (after voted) 2)))))
  ∧ 1%Z = total (roomOf (rooms (after voted))
                   (identity (roomId (metaOf (after voted) 2)))).
Proof.
  assert (onMessage allOpen 2 (vote "q1" (int 1) (Str "Ana")) (after asked)
          = Completed (after voted)
              [(1, snapshot [0; 1]%Z 1); (2, snapshot [0; 1]%Z 1)]) as Hrun
    by compute_eq.
  split; [exact Hrun|].
  destruct (snapshot_is_current _ _ _ _ _ _ 1 (Str "R1") (Some q1) [0; 1]%Z 1%Z
              Hrun (list_elem_of_here _ _)) as (_ & _ & Hcs & Ht).
  split; [exact Hcs|exact Ht].
Defined.

(** X7 on the player's session after it voted. *)
Lemma sessions_stay_well_formed_witness :
  run voted initial = Some (after voted)
  ∧ (metaOf (after voted) 2 = newMeta ∨ boundMeta (metaOf (after voted) 2)).
Proof.
  assert (run voted initial = Some (after voted)) as Hrun by compute_eq.
  split; [exact Hrun|]. exact (sessions_stay_well_formed voted _ 2 Hrun).
Defined.

(** X8 on the player, a client of room [R1]. *)
Lemma members_have_joined_witness :
  run voted initial = Some (after voted)
  ∧ member (after voted) (IStr "R1") 2
  ∧ Exists (joinsRoom 2 (IStr "R1")) voted.
Proof.
  assert (run voted initial = Some (after voted)) as Hrun by compute_eq.
  assert (member (after voted) (IStr "R1") 2) as Hmem.
  { apply member_roomOf. decide_by_computation. }
  split_and!; [exact Hrun|exact Hmem|].
  exact (members_have_joined voted _ _ _ Hrun Hmem).
Defined.

(** X9 on the broadcast of the player's vote. *)
Lemma one_send_per_connection_witness :
  run asked initial = Some (after asked)
  ∧ NoDup [(1, snapshot [0; 1]%Z 1); (2, snapshot [0; 1]%Z 1)].*1.
Proof.
  assert (run asked initial = Some (after asked)) as Hrun by compute_eq.
  split; [exact Hrun|].
  apply (one_send_per_connection asked (after asked) allOpen 2
           (vote "q1" (int 1) (Str "Ana")) (after voted) _ Hrun).
  compute_eq.
Defined.

(** X11 on the state after the player's vote.  The host's vote keeps the
    ballot of the player; the host's next question drops it. *)
Lemma ballots_kept_until_new_question_witness :
  votedBy (R1 (after voted)) = {["R1:q1:ana"]}
  ∧ step (Message allOpen 1 (vote "q1" (int 0) (Str "Bob"))) (after voted)
    = Some (after votedTwice)
  ∧ votedBy (R1 (after voted)) ⊆ votedBy (R1 (after votedTwice))
  ∧ "R1:q1:ana" ∈ votedBy (R1 (after votedTwice))
  ∧ step (Message allOpen 1 (setQuestion "q2" "Size?" ["S"; "M"; "L"]))
         (after voted)
    = Some (after askedNext)
  ∧ role (metaOf (after voted) 1) = Str "host"
  ∧ votedBy (R1 (after askedNext)) = ∅
  ∧ total (R1 (after askedNext)) = 0%Z.
Proof.
  assert (votedBy (R1 (after voted)) = {["R1:q1:ana"]}) as Hkeys by compute_eq.
  assert (step (Message allOpen 1 (vote "q1" (int 0) (Str "Bob"))) (after voted)
          = Some (after votedTwice)) as Hstep by compute_eq.
  assert (step (Message allOpen 1 (setQuestion "q2" "Size?" ["S"; "M"; "L"]))
               (after voted)
          = Some (after askedNext)) as Hstep' by compute_eq.
  assert (votedBy (R1 (after voted)) ⊆ votedBy (R1 (after votedTwice))) as Hkept.
  { destruct (ballots_kept_until_new_question _ _ _ (IStr "R1") Hstep)
      as [(_ & Hkept & _) | (_ & _ & Hempty & _)]; [exact Hkept|].
    exfalso. revert Hempty. vm_compute. discriminate. }
  destruct (ballots_kept_until_new_question _ _ _ (IStr "R1") Hstep')
    as [(Hq & _) | (Hrole & _ & Hempty & Htotal & _)].
  { exfalso. revert Hq. vm_compute. discriminate. }
  split_and!; [exact Hkeys|exact Hstep|exact Hkept| |exact Hstep'|exact Hrole
              |exact Hempty|exact Htotal].
  apply Hkept. rewrite Hkeys. by apply elem_of_singleton.
Defined.

(** X12 on the player's vote for the second option. *)
Lemma integer_vote_counts_once_witness :
  joinedRoomsExist (after asked)
  ∧ ∃ st' sent c,
      onMessage allOpen 2 (vote "q1" (int 1) (Str "Ana")) (after asked)
      = Completed st' sent
      ∧ entries (counts (R1 (after asked))) !! 1%nat = Some c
      ∧ total (roomOf (rooms st') (identity (roomId (metaOf (after asked) 2))))
        = (total (R1 (after asked)) + 1)%Z.
Proof.
  assert (joinedRoomsExist (after asked)) as Hwf by decide_by_computation.
  split; [exact Hwf|].
  destruct (proj2 (integer_vote_counts_once allOpen 2
                     (voteMsg "q1" (int 1) (Str "Ana")) (after asked) q1 1
                     Hwf ltac:(compute_eq) eq_refl ltac:(compute_eq)
                     ltac:(compute_eq) eq_refl)
              "R1:q1:ana")
    as (st' & sent & c & Hrun & Hc & _ & _ & Htotal & _).
  - vm_compute. split; [discriminate|reflexivity].
  - reflexivity.
  - compute_eq.
  - decide_by_computation.
  - exists st', sent, c. split_and!; [exact Hrun|exact Hc|exact Htotal].
Defined.

(** X14 on a [JOIN] with a role that does not exist. *)
Lemma join_rejections_witness :
  onMessage allOpen 1 (join "R1" "Ana" "admin") initial
  = Completed initial [(1, ERROR Err.JoinBadRole)].
Proof.
  apply (proj2 (join_rejections allOpen 1 (joinMsg "R1" "Ana" "admin") initial
                  eq_refl eq_refl));
    [reflexivity|reflexivity|reflexivity|discriminate|discriminate].
Defined.

(** X15 on a question with a single option. *)
Lemma setQuestion_rejections_witness :
  joinedRoomsExist (after joins)
  ∧ onMessage allOpen 1 (setQuestion "q1" "Color?" ["Red"]) (after joins)
    = Completed (after joins) [(1, ERROR Err.InvalidOptionCount)].
Proof.
  assert (joinedRoomsExist (after joins)) as Hwf by decide_by_computation.
  split; [exact Hwf|].
  apply (proj2 (setQuestion_rejections allOpen 1
                  (setQuestionMsg "q1" "Color?" ["Red"]) (after joins)
                  Hwf ltac:(compute_eq) ltac:(compute_eq) eq_refl eq_refl)
           3 [Str "Red"]);
    [reflexivity|reflexivity|reflexivity|left; repeat constructor].
Defined.

(** X16 on two spellings of one name. *)
Lemma ballotKey_by_normalized_name_witness :
  ballotKey (Str "R1") (Str "q1") (Str "Ana") = inr "R1:q1:ana"
  ∧ ballotKey (Str "R1") (Str "q1") (Str " ANA ") = inr "R1:q1:ana"
  ∧ ("R1:q1:ana" = "R1:q1:ana"
     ↔ String_toLowerCase (String_trim "Ana")
       = String_toLowerCase (String_trim " ANA ")).
Proof.
  assert (ballotKey (Str "R1") (Str "q1") (Str "Ana") = inr "R1:q1:ana") as H1
    by compute_eq.
  assert (ballotKey (Str "R1") (Str "q1") (Str " ANA ") = inr "R1:q1:ana") as H2
    by compute_eq.
  split_and!; [exact H1|exact H2|].
  exact (ballotKey_by_normalized_name _ _ _ _ _ _ H1 H2).
Defined.

(** X17 on a vote in room [R1], where every id is a string. *)
Lemma primitive_ids_never_throw_witness :
  isPrimitive (roomId (metaOf (after asked) 2)) = true
  ∧ ∃ st' sent,
      onMessage allOpen 2 (vote "q1" (int 0) (Str "Ana")) (after asked)
      = Completed st' sent.
Proof.
  assert (isPrimitive (roomId (metaOf (after asked) 2)) = true) as Hrid
    by compute_eq.
  split; [exact Hrid|].
  apply (primitive_ids_never_throw allOpen 2
           (vote "q1" (int 0) (Str "Ana")) (after asked) Hrid).
  - assert (question (roomOf (rooms (after asked))
                        (identity (roomId (metaOf (after asked) 2))))
            = Some q1) as -> by compute_eq.
    intros q Hq. injection Hq as <-. reflexivity.
  - intros msg Hmsg _. injection Hmsg as <-. eexists. reflexivity.
Defined.

(** X18 on the host voting under the player's name, spelled otherwise. *)
Lemma ballot_is_by_name_witness :
  ∃ st1 sent1,
    onMessage allOpen 2 (vote "q1" (int 1) (Str "Ana")) (after asked)
    = Completed st1 sent1
    ∧ onMessage allOpen 1 (vote "q1" (int 0) (Str " ANA ")) st1
      = Completed st1 [(1, ERROR Err.DuplicateVote)].
Proof.
  destruct (ballot_is_by_name allOpen allOpen 2 1
              (voteMsg "q1" (int 1) (Str "Ana"))
              (voteMsg "q1" (int 0) (Str " ANA ")) (after asked) q1
              "Ana" " ANA " (integer 1) (integer 0) "R1:q1:ana")
    as (st1 & sent1 & Hvote1 & Hdup & _);
    [compute_eq|compute_eq|compute_eq|reflexivity|reflexivity|compute_eq
    |compute_eq|reflexivity|reflexivity|compute_eq|compute_eq|reflexivity
    |reflexivity|discriminate|discriminate|compute_eq|decide_by_computation|].
  exists st1, sent1. split; [exact Hvote1|]. apply Hdup. compute_eq.
Defined.

(** X19 on the execution of the scenario, whose vote has index [1]. *)
Lemma integral_votes_totalsMatch_witness :
  run voted initial = Some (after voted) ∧ totalsMatch (after voted).
Proof.
  assert (run voted initial = Some (after voted)) as Hrun by compute_eq.
  split; [exact Hrun|].
  apply (integral_votes_totalsMatch voted (after voted)); [|exact Hrun].
  repeat (apply Forall_cons; split;
          [intros index Hi; vm_compute in Hi;
           first [discriminate Hi | injection Hi as <-; reflexivity]|]).
  apply Forall_nil. exact I.
Defined.

(** X20 on a vote for a question that is not the active one. *)
Lemma vote_rejections_witness :
  joinedRoomsExist (after asked)
  ∧ onMessage allOpen 2 (vote "q9" (int 0) (Str "Ana")) (after asked)
    = Completed (after asked) [(2, ERROR Err.QuestionMismatch)].
Proof.
  assert (joinedRoomsExist (after asked)) as Hwf by decide_by_computation.
  split; [exact Hwf|].
  destruct (vote_rejections allOpen 2 (voteMsg "q9" (int 0) (Str "Ana"))
              (after asked) Hwf ltac:(compute_eq) eq_refl eq_refl)
    as [_ Hq].
  apply (proj1 (Hq q1 ltac:(compute_eq))). compute_eq.
Defined.

(** X21 on the vote whose name is a number: it throws, and the exception is
    that of its ballot key. *)
Lemma onMessage_throws_witness :
  onMessage allOpen 2 (vote "q1" (int 0) (int 7)) (after asked) = Threw TypeError
  ∧ ∃ msg q,
      vote "q1" (int 0) (int 7) = Some msg
      ∧ question (roomOf (rooms (after asked))
                    (identity (roomId (metaOf (after asked) 2)))) = Some q
      ∧ ballotKey (roomId (metaOf (after asked) 2)) (qid q)
                  (get (get msg "payload") "name") = inl TypeError.
Proof.
  assert (onMessage allOpen 2 (vote "q1" (int 0) (int 7)) (after asked)
          = Threw TypeError) as Hthrow by compute_eq.
  split; [exact Hthrow|].
  destruct (proj1 (onMessage_throws allOpen 2 _ (after asked) TypeError) Hthrow)
    as (msg & q & index & Hraw & _ & _ & _ & Hq & _ & _ & _ & _ & Hkey).
  exists msg, q. split_and!; [exact Hraw|exact Hq|exact Hkey].
Defined.
End Examples.
